(** * Icinga 2 cluster layer: ApiClient message handling and the
      "feature enable" command

    A shallow embedding of
    - [ApiClient] (remote/apiclient.cpp): [SendMessage], [Disconnect],
      [DisconnectSync], [ProcessMessage], and the two API functions
      registered by that file, [SetLogPositionHandler] and
      [RequestCertificateHandler];
    - [FeatureEnableCommand::Run] (lib/cli/featureenablecommand.cpp).

    Stateful code is written in a small state-and-exception monad over a
    record [World] that holds the objects one connection can reach. *)

From Stdlib Require Import ZArith Lia.
From Stdlib Require Import Floats.SpecFloat.
From stdpp Require Import base gmap strings list.

#[local] Set Warnings "-register-all,-clear-no-such-hyp".
#[local] Open Scope string_scope.

(** ** Numbers

    A C++ [double] is an IEEE 754 binary64 value.  The code only compares
    timestamps, so the model is the specification type of the Standard
    Library with its comparison ([SFltb] is [<] of the hardware: false as
    soon as one side is a NaN). *)

Definition double : Type := spec_float.

Definition double_of_Z (z : Z) : double := binary_normalize 53 1024 z 0 false.

Definition is_nan (d : double) : bool :=
  match d with S754_nan => true | _ => false end.

(** [a < b], [a > b], [a <= b] and [a == b] on doubles. *)
Definition dlt (a b : double) : bool := SFltb a b.
Definition dgt (a b : double) : bool := SFltb b a.
Definition dle (a b : double) : bool := SFleb a b.

(** ** Values and dictionaries (base/value.hpp, base/dictionary.hpp)

    A [Value] is empty, a number, a string or an object; the objects that
    travel in JSON-RPC messages are dictionaries and arrays.  A
    [Dictionary] is a [std::map<String, Value>]. *)

Definition String : Type := string.

(** The one-character string made of a double quote. *)
Definition dquote : String :=
  String.String (Ascii.Ascii false true false false false true false false) EmptyString.

Inductive Value : Type :=
| Empty
| ValueNumber (d : double)
| ValueString (s : String)
| ValueDictionary (d : gmap string Value)
| ValueArray (a : list Value).

Abbreviation Dictionary := (gmap string Value).

(** [Dictionary::Get]: the value stored under the key, [Empty] when the key
    is absent. *)
Definition Get (d : Dictionary) (key : String) : Value :=
  default Empty (d !! key).

(** [Dictionary::Set]. *)
Definition Set_ (key : String) (v : Value) (d : Dictionary) : Dictionary :=
  <[key := v]> d.

(** [Dictionary::Contains]. *)
Definition Contains (d : Dictionary) (key : String) : bool :=
  match d !! key with Some _ => true | None => false end.

(** ** Exceptions

    Every exception the code throws or catches derives from
    [std::exception].  [openssl_error] carries the optional
    [errinfo_openssl_error] code read by [ProcessMessage]. *)

Inductive exception : Type :=
| invalid_argument (what : String)
| openssl_error (pe : option Z)
| bad_cast
| bad_lexical_cast.

(** ** Collaborators that are not part of these sources

    OpenSSL types and the helpers of base/tlsutility.hpp, the number
    conversions of base/convert.hpp and [DiagnosticInformation] of
    base/exception.hpp are taken as parameters. *)

Class Externals : Type := {
  X509 : Type;
  EVP_PKEY : Type;
  X509_NAME : Type;
  X509_get_pubkey : X509 -> EVP_PKEY;
  X509_get_subject_name : X509 -> X509_NAME;
  PBKDF2_SHA1 : String -> String -> Z -> String;
  CreateCertIcingaCA : EVP_PKEY -> X509_NAME -> X509;
  CertificateToString : X509 -> String;
  GetIcingaCADir : String;
  GetX509Certificate : String -> X509;
  DiagnosticInformation : exception -> String;
  (* boost::lexical_cast<double> of a string; [None] is bad_lexical_cast *)
  Convert_ToDouble : String -> option double;
  (* the text of a value that is neither empty nor a string *)
  Convert_ToString : Value -> String;
}.

(** Results of a computation that may throw. *)
Inductive Outcome (A : Type) : Type :=
| Normal (a : A)
| Thrown (ex : exception).
Arguments Normal {A} a.
Arguments Thrown {A} ex.

Section Conversions.
Context `{Externals}.

(** [Value::operator double]. *)
Definition Value_to_double (v : Value) : Outcome double :=
  match v with
  | Empty => Normal (S754_zero false)
  | ValueNumber d => Normal d
  | ValueString s =>
      match Convert_ToDouble s with
      | Some d => Normal d
      | None => Thrown bad_lexical_cast
      end
  | ValueDictionary _ | ValueArray _ => Thrown bad_lexical_cast
  end.

(** [Value::operator String]. *)
Definition Value_to_String (v : Value) : String :=
  match v with
  | Empty => EmptyString
  | ValueString s => s
  | _ => Convert_ToString v
  end.

(** [Value::operator Dictionary::Ptr]: the empty value is the null
    pointer; a value that is not a dictionary does not convert. *)
Definition Value_to_DictionaryPtr (v : Value) : Outcome (option Dictionary) :=
  match v with
  | Empty => Normal None
  | ValueDictionary d => Normal (Some d)
  | _ => Thrown bad_cast
  end.

(** [value != "literal"]. *)
Definition Value_ne_cstr (v : Value) (s : String) : bool :=
  match v with
  | Empty => negb (String.eqb EmptyString s)
  | ValueString x => negb (String.eqb x s)
  | _ => true
  end.

End Conversions.

(** ** The objects a connection can reach *)

(** Object identity of an [ApiClient] (what [GetSelf()] returns). *)
Definition ClientPtr : Type := nat.

Inductive ConnectionRole : Type := ClientRole | ServerRole.

Inductive LogSeverity : Type :=
| LogDebug | LogNotice | LogInformation | LogWarning | LogCritical.

Record LogEntry : Type := mkLogEntry {
  severity : LogSeverity;
  facility : String;
  text : String;
}.

(** Work items of [m_WriteQueue]: the bound call
    [SendMessageSync(message)]. *)
Inductive Task : Type :=
| SendMessageSync_task (message : Dictionary).

(** Callbacks handed to [Utility::QueueAsyncCallback]: the bound call
    [DisconnectSync()] on a client. *)
Inductive Callback : Type :=
| DisconnectSync_callback (client : ClientPtr).

(** What the next call of [JsonRpc::ReadMessage] does on a stream. *)
Inductive ReadEvent : Type :=
| Read_message (message : option Dictionary)
| Read_throws (ex : exception).

(** Modelled from the spec: [Endpoint] is declared in remote/endpoint.ti,
    which is not among the sources.  Its fields follow the data model of
    the spec (section 3): the zone, [localLogPosition],
    [remoteLogPosition] and the connections registered with it.
    [SetLocalLogPosition] and [SetRemoteLogPosition] are the accessors
    the class compiler generates for an attribute (compare the [double]
    attributes of notification.ti): they store their argument.  The
    comparisons that keep the positions monotonic are those of
    apiclient.cpp (lines 156 and 210). *)
Record Endpoint : Type := mkEndpoint {
  m_Zone : option String;
  m_LocalLogPosition : double;
  m_RemoteLogPosition : double;
  m_Clients : gset ClientPtr;
}.

Definition Endpoint_SetLocalLogPosition (ts : double) (e : Endpoint) : Endpoint :=
  mkEndpoint (m_Zone e) ts (m_RemoteLogPosition e) (m_Clients e).

Definition Endpoint_SetRemoteLogPosition (ts : double) (e : Endpoint) : Endpoint :=
  mkEndpoint (m_Zone e) (m_LocalLogPosition e) ts (m_Clients e).

(** Modelled from the spec: [Endpoint::RemoveClient] (remote/endpoint.cpp)
    deregisters the connection from its Endpoint. *)
Definition Endpoint_RemoveClient (c : ClientPtr) (e : Endpoint) : Endpoint :=
  mkEndpoint (m_Zone e) (m_LocalLogPosition e) (m_RemoteLogPosition e)
             (m_Clients e ∖ {[c]}).

(** Modelled from the spec: the part of [ApiListener] the connection uses,
    the configured ticket salt and the set of anonymous connections. *)
Record ApiListener : Type := mkApiListener {
  ticket_salt : String;
  m_AnonymousClients : gset ClientPtr;
}.

Definition ApiListener_RemoveAnonymousClient (c : ClientPtr) (l : ApiListener)
  : ApiListener :=
  mkApiListener (ticket_salt l) (m_AnonymousClients l ∖ {[c]}).

Section Model.
Context `{Externals}.

(** The TLS stream of a connection: the end-of-stream predicate, whether
    [Close] was called, what the coming reads deliver, what was written,
    and the certificate the peer presented. *)
Record TlsStream : Type := mkTlsStream {
  stream_eof : bool;
  stream_closed : bool;
  stream_inbound : list ReadEvent;
  stream_outbound : list Dictionary;
  stream_peer_certificate : X509;
}.

Record ApiClient : Type := mkApiClient {
  self : ClientPtr;
  m_Identity : String;
  m_Authenticated : bool;
  m_Role : ConnectionRole;
  m_Seen : double;
  m_WriteQueue : list Task;
  m_Stream : TlsStream;
}.

(** The state one connection runs in: the connection, the Endpoint object
    [m_Endpoint] points to ([None] is the null pointer), the listener, the
    zone directory, the queue of [Utility::QueueAsyncCallback], the log,
    the clock read by [Utility::GetTime], and the certificates signed by
    [CreateCertIcingaCA]. *)
Record World : Type := mkWorld {
  client : ApiClient;
  m_Endpoint : option Endpoint;
  listener : ApiListener;
  zones : gset String;
  local_zone : option String;
  async_callbacks : list Callback;
  log : list LogEntry;
  now : double;
  ca_signed : list X509;
}.

Definition set_client (c : ApiClient) (w : World) : World :=
  mkWorld c (m_Endpoint w) (listener w) (zones w) (local_zone w)
          (async_callbacks w) (log w) (now w) (ca_signed w).

Definition set_m_Endpoint (e : option Endpoint) (w : World) : World :=
  mkWorld (client w) e (listener w) (zones w) (local_zone w)
          (async_callbacks w) (log w) (now w) (ca_signed w).

Definition set_listener (l : ApiListener) (w : World) : World :=
  mkWorld (client w) (m_Endpoint w) l (zones w) (local_zone w)
          (async_callbacks w) (log w) (now w) (ca_signed w).

Definition set_async_callbacks (q : list Callback) (w : World) : World :=
  mkWorld (client w) (m_Endpoint w) (listener w) (zones w) (local_zone w)
          q (log w) (now w) (ca_signed w).

Definition set_log (l : list LogEntry) (w : World) : World :=
  mkWorld (client w) (m_Endpoint w) (listener w) (zones w) (local_zone w)
          (async_callbacks w) l (now w) (ca_signed w).

Definition set_ca_signed (l : list X509) (w : World) : World :=
  mkWorld (client w) (m_Endpoint w) (listener w) (zones w) (local_zone w)
          (async_callbacks w) (log w) (now w) l.

Definition set_m_Seen (t : double) (c : ApiClient) : ApiClient :=
  mkApiClient (self c) (m_Identity c) (m_Authenticated c) (m_Role c) t
              (m_WriteQueue c) (m_Stream c).

Definition set_m_WriteQueue (q : list Task) (c : ApiClient) : ApiClient :=
  mkApiClient (self c) (m_Identity c) (m_Authenticated c) (m_Role c)
              (m_Seen c) q (m_Stream c).

Definition set_m_Stream (s : TlsStream) (c : ApiClient) : ApiClient :=
  mkApiClient (self c) (m_Identity c) (m_Authenticated c) (m_Role c)
              (m_Seen c) (m_WriteQueue c) s.

(** ** The monad: state passing with exceptions

    State changes made before a throw stay, as in C++. *)
Definition M (A : Type) : Type := World -> Outcome A * World.

Definition ret {A} (a : A) : M A := fun w => (Normal a, w).

Definition bind {A B} (m : M A) (k : A -> M B) : M B :=
  fun w =>
    match m w with
    | (Normal a, w') => k a w'
    | (Thrown ex, w') => (Thrown ex, w')
    end.

Definition throw {A} (ex : exception) : M A := fun w => (Thrown ex, w).

(** [try { body } catch (const std::exception& ex) { handler }] *)
Definition try_catch {A} (body : M A) (handler : exception -> M A) : M A :=
  fun w =>
    match body w with
    | (Normal a, w') => (Normal a, w')
    | (Thrown ex, w') => handler ex w'
    end.

Definition lift {A} (o : Outcome A) : M A := fun w => (o, w).
Definition gets {A} (f : World -> A) : M A := fun w => (Normal (f w), w).
Definition modify (f : World -> World) : M unit := fun w => (Normal tt, f w).

End Model.

Declare Scope monad_scope.
Delimit Scope monad_scope with monad.
Notation "x <- c ;; k" := (bind c (fun x => k))
  (at level 100, c at next level, k at level 200, right associativity)
  : monad_scope.
Notation "c ;; k" := (bind c (fun _ => k))
  (at level 100, k at level 200, right associativity) : monad_scope.
#[local] Open Scope monad_scope.

(** ** remote/apiclient.cpp *)

Section ApiClient.
Context `{Externals}.

(** [MessageOrigin]: the connection that delivered the message and the
    zone of the sender ([None] is the null pointer). *)
Record MessageOrigin : Type := mkMessageOrigin {
  FromClient : ClientPtr;
  FromZone : option String;
}.

(** An API function takes the origin and the parameters and returns a
    [Value]; [Registry] is the table behind [ApiFunction::GetByName]
    (filled by [REGISTER_APIFUNCTION] before any connection exists). *)
Definition ApiFunction : Type := MessageOrigin -> option Dictionary -> M Value.
Definition Registry : Type := String -> option ApiFunction.

(** *** Primitives of the collaborators *)

Definition Log (sev : LogSeverity) (fac : String) (msg : String) : M unit :=
  modify (fun w => set_log (log w ++ [mkLogEntry sev fac msg]) w).

Definition Utility_GetTime : M double := gets now.

Definition Utility_QueueAsyncCallback (cb : Callback) : M unit :=
  modify (fun w => set_async_callbacks (async_callbacks w ++ [cb]) w).

Definition update_stream (f : TlsStream -> TlsStream) : M unit :=
  modify (fun w => set_client (set_m_Stream (f (m_Stream (client w))) (client w)) w).

(** [JsonRpc::ReadMessage]: the next read event of the stream; with
    nothing buffered no message is returned. *)
Definition JsonRpc_ReadMessage : M (option Dictionary) :=
  s <- gets (fun w => m_Stream (client w));;
  match stream_inbound s with
  | [] => ret None
  | ev :: rest =>
      update_stream (fun s => mkTlsStream (stream_eof s) (stream_closed s) rest
                                (stream_outbound s) (stream_peer_certificate s));;
      match ev with
      | Read_message m => ret m
      | Read_throws ex => throw ex
      end
  end.

(** [JsonRpc::SendMessage]: the message is written to the stream (write
    errors of the transport are not modelled). *)
Definition JsonRpc_SendMessage (message : Dictionary) : M unit :=
  update_stream (fun s => mkTlsStream (stream_eof s) (stream_closed s)
                            (stream_inbound s) (stream_outbound s ++ [message])
                            (stream_peer_certificate s)).

(** Modelled from the spec: [Stream::Close] closes the transport. *)
Definition TlsStream_Close : M unit :=
  update_stream (fun s => mkTlsStream (stream_eof s) true (stream_inbound s)
                            (stream_outbound s) (stream_peer_certificate s)).

(** [WorkQueue::GetLength] and [WorkQueue::Enqueue] on [m_WriteQueue]. *)
Definition WorkQueue_GetLength (q : list Task) : Z := Z.of_nat (length q).

Definition WorkQueue_Enqueue (t : Task) : M unit :=
  modify (fun w => set_client (set_m_WriteQueue (m_WriteQueue (client w) ++ [t])
                                 (client w)) w).

(** [Zone::GetByName]. *)
Definition Zone_GetByName (name : String) : M (option String) :=
  gets (fun w => if decide (name ∈ zones w) then Some name else None).

(** [CreateCertIcingaCA] signs a certificate; the world keeps the list of
    what was signed. *)
Definition CreateCertIcingaCA_call (pubkey : EVP_PKEY) (subject : X509_NAME)
  : M X509 :=
  let newcert := CreateCertIcingaCA pubkey subject in
  modify (fun w => set_ca_signed (ca_signed w ++ [newcert]) w);;
  ret newcert.

(** *** ApiClient::Disconnect (lines 106-109) *)
Definition Disconnect : M unit :=
  c <- gets client;;
  Utility_QueueAsyncCallback (DisconnectSync_callback (self c)).

(** *** ApiClient::DisconnectSync (lines 111-124) *)
Definition DisconnectSync : M unit :=
  c <- gets client;;
  Log LogWarning "ApiClient"
      ("API client disconnected for identity '" +:+ m_Identity c +:+ "'");;
  ep <- gets m_Endpoint;;
  match ep with
  | Some e => modify (set_m_Endpoint (Some (Endpoint_RemoveClient (self c) e)))
  | None =>
      l <- gets listener;;
      modify (set_listener (ApiListener_RemoveAnonymousClient (self c) l))
  end;;
  TlsStream_Close.

(** The thread pool behind [Utility::QueueAsyncCallback] runs the queued
    callbacks in order. *)
Definition run_callback (cb : Callback) : M unit :=
  match cb with
  | DisconnectSync_callback _ => DisconnectSync
  end.

Fixpoint run_callbacks (cbs : list Callback) : M unit :=
  match cbs with
  | [] => ret tt
  | cb :: rest => run_callback cb;; run_callbacks rest
  end.

Definition run_async : M unit :=
  cbs <- gets async_callbacks;;
  modify (set_async_callbacks []);;
  run_callbacks cbs.

(** *** ApiClient::SendMessage (lines 73-83) *)
Definition SendMessage (message : Dictionary) : M unit :=
  c <- gets client;;
  if (20000 <? WorkQueue_GetLength (m_WriteQueue c))%Z then
    Log LogWarning "remote"
        ("Closing connection for API identity '" +:+ m_Identity c
         +:+ "': Too many queued messages.");;
    Disconnect
  else
    WorkQueue_Enqueue (SendMessageSync_task message).

(** *** SetLogPositionHandler (lines 199-214)

    [origin.FromClient] is the connection of this world. *)
Definition SetLogPositionHandler (origin : MessageOrigin)
    (params : option Dictionary) : M Value :=
  match params with
  | None => ret Empty
  | Some params =>
      log_position <- lift (Value_to_double (Get params "log_position"));;
      endpoint <- gets m_Endpoint;;
      match endpoint with
      | None => ret Empty
      | Some e =>
          (if dgt log_position (m_LocalLogPosition e) then
             modify (set_m_Endpoint
                       (Some (Endpoint_SetLocalLogPosition log_position e)))
           else ret tt);;
          ret Empty
      end
  end.

(** *** RequestCertificateHandler (lines 216-252) *)
Definition RequestCertificateHandler (origin : MessageOrigin)
    (params : option Dictionary) : M Value :=
  match params with
  | None => ret Empty
  | Some params =>
      salt <- gets (fun w => ticket_salt (listener w));;
      let result : Dictionary := ∅ in
      if String.eqb salt EmptyString then
        ret (ValueDictionary
               (Set_ "error" (ValueString "Ticket salt is not configured.") result))
      else
        let ticket := Value_to_String (Get params "ticket") in
        identity <- gets (fun w => m_Identity (client w));;
        let realTicket := PBKDF2_SHA1 identity salt 50000 in
        if negb (String.eqb ticket realTicket) then
          ret (ValueDictionary
                 (Set_ "error" (ValueString "Invalid ticket.") result))
        else
          cert <- gets (fun w => stream_peer_certificate (m_Stream (client w)));;
          let pubkey := X509_get_pubkey cert in
          let subject := X509_get_subject_name cert in
          newcert <- CreateCertIcingaCA_call pubkey subject;;
          let result := Set_ "cert" (ValueString (CertificateToString newcert)) result in
          let cacertfile := GetIcingaCADir +:+ "/ca.crt" in
          let cacert := GetX509Certificate cacertfile in
          let result := Set_ "ca" (ValueString (CertificateToString cacert)) result in
          ret (ValueDictionary result)
  end.

(** The two registrations of this file (lines 32-35); [others] stands for
    the functions registered elsewhere. *)
Definition registry_with (others : Registry) : Registry :=
  fun name =>
    if String.eqb name "log::SetLogPosition" then Some SetLogPositionHandler
    else if String.eqb name "pki::RequestCertificate" then Some RequestCertificateHandler
    else others name.

End ApiClient.

Section ProcessMessage.
Context `{Externals}.

(** *** ApiClient::ProcessMessage (lines 126-197)

    The function is cut at its comments: the freshness check (lines
    152-160), the origin (162-170), the dispatch (177-188) and the
    response (190-194). *)

(** Lines 152-160.  The result [true] is the early [return true] of an old
    message. *)
Definition ProcessMessage_freshness (message : Dictionary) : M bool :=
  ep <- gets m_Endpoint;;
  match ep with
  | Some e =>
      if Contains message "ts" then
        ts <- lift (Value_to_double (Get message "ts"));;
        (* ignore old messages *)
        if dlt ts (m_RemoteLogPosition e) then ret true
        else
          modify (set_m_Endpoint (Some (Endpoint_SetRemoteLogPosition ts e)));;
          ret false
      else ret false
  | None => ret false
  end.

(** Lines 162-170. *)
Definition ProcessMessage_origin (message : Dictionary) : M MessageOrigin :=
  c <- gets client;;
  ep <- gets m_Endpoint;;
  match ep with
  | Some e =>
      lz <- gets local_zone;;
      if negb (bool_decide (m_Zone e = lz)) then
        ret (mkMessageOrigin (self c) (m_Zone e))
      else
        z <- Zone_GetByName (Value_to_String (Get message "originZone"));;
        ret (mkMessageOrigin (self c) z)
  | None => ret (mkMessageOrigin (self c) None)
  end.

(** Lines 177-188: the [try] block and its [catch]. *)
Definition ProcessMessage_dispatch (reg : Registry) (origin : MessageOrigin)
    (message : Dictionary) (method : String) : M Dictionary :=
  let resultMessage : Dictionary := ∅ in
  try_catch
    (match reg method with
     | None =>
         throw (invalid_argument ("Function '" +:+ method +:+ "' does not exist."))
     | Some afunc =>
         params <- lift (Value_to_DictionaryPtr (Get message "params"));;
         v <- afunc origin params;;
         ret (Set_ "result" v resultMessage)
     end)
    (fun ex =>
       ret (Set_ "error" (ValueString (DiagnosticInformation ex)) resultMessage)).

(** Lines 190-194. *)
Definition ProcessMessage_reply (message resultMessage : Dictionary) : M unit :=
  if Contains message "id" then
    let resultMessage := Set_ "jsonrpc" (ValueString "2.0") resultMessage in
    let resultMessage := Set_ "id" (Get message "id") resultMessage in
    JsonRpc_SendMessage resultMessage
  else ret tt.

(** Lines 162-188: origin, log line and dispatch; the result is
    [resultMessage]. *)
Definition ProcessMessage_invoke (reg : Registry) (message : Dictionary)
  : M Dictionary :=
  origin <- ProcessMessage_origin message;;
  let method := Value_to_String (Get message "method") in
  c <- gets client;;
  Log LogNotice "ApiClient"
      ("Received '" +:+ method +:+ "' message from '" +:+ m_Identity c +:+ "'");;
  ProcessMessage_dispatch reg origin message method.

(** Lines 162-196: what happens to a message that passed the freshness
    check. *)
Definition ProcessMessage_handle (reg : Registry) (message : Dictionary)
  : M bool :=
  resultMessage <- ProcessMessage_invoke reg message;;
  ProcessMessage_reply message resultMessage;;
  ret true.

(** Lines 149-150. *)
Definition ProcessMessage_seen (message : Dictionary) : M unit :=
  if Value_ne_cstr (Get message "method") "log::SetLogPosition" then
    t <- Utility_GetTime;;
    modify (fun w => set_client (set_m_Seen t (client w)) w)
  else ret tt.

Definition ProcessMessage (reg : Registry) : M bool :=
  s <- gets (fun w => m_Stream (client w));;
  if stream_eof s then
    Disconnect;;
    ret false
  else
    r <- try_catch
           (message <- JsonRpc_ReadMessage;; ret (inl message))
           (fun ex =>
              match ex with
              | openssl_error (Some 0%Z) =>
                  ret (inr false) (* Connection was closed cleanly *)
              | _ => throw ex
              end);;
    match r with
    | inr b => ret b
    | inl None => ret false
    | inl (Some message) =>
        ProcessMessage_seen message;;
        old <- ProcessMessage_freshness message;;
        if old then ret true else ProcessMessage_handle reg message
    end.

(** The world in which the freshness check of a message starts: the
    message was taken from the stream and [m_Seen] refreshed. *)
Definition received (message : Dictionary) (w : World) : World :=
  snd (ProcessMessage_seen message (snd (JsonRpc_ReadMessage w))).

(** The response of lines 191-192 built from [resultMessage]. *)
Definition response (message resultMessage : Dictionary) : Dictionary :=
  Set_ "id" (Get message "id") (Set_ "jsonrpc" (ValueString "2.0") resultMessage).

(** [Disconnect] called [n] times in a row. *)
Fixpoint Disconnect_times (n : nat) : M unit :=
  match n with
  | O => ret tt
  | S n => Disconnect;; Disconnect_times n
  end.

(** What teardown acts on: the registration with the Endpoint or with the
    anonymous set, and the transport. *)
Definition connection_state (w : World)
  : option Endpoint * gset ClientPtr * TlsStream :=
  (m_Endpoint w, m_AnonymousClients (listener w), m_Stream (client w)).



End ProcessMessage.


(** Exactly one of the fields [result] and [error] is present. *)
Definition exactly_one_of_result_error (d : Dictionary) : Prop :=
  (is_Some (d !! "result") /\ d !! "error" = None) \/
  (d !! "result" = None /\ is_Some (d !! "error")).

(** ** lib/cli/featureenablecommand.cpp *)

(** The files the command sees.  [existing] is what [Utility::PathExists]
    answers, [symlinks] maps a link to what it refers to, and [link_errno]
    gives, for a path, the error the operating system answers to
    [symlink] there ([None]: the call goes through). *)
Record FileSystem : Type := mkFileSystem {
  existing : gset String;
  symlinks : gmap String String;
  link_errno : String -> option Z;
}.

Record CliState : Type := mkCliState {
  fs : FileSystem;
  cli_log : list LogEntry;
}.

(** [Application::GetSysconfDir], [Convert::ToString] of an [int] and
    [Utility::FormatErrorNumber] are parameters. *)
Class CliEnvironment : Type := {
  SysconfDir : String;
  Convert_ToString_int : Z -> String;
  Utility_FormatErrorNumber : Z -> String;
}.

Section FeatureEnable.
Context `{CliEnvironment}.

Definition Utility_PathExists (path : String) (st : CliState) : bool :=
  bool_decide (path ∈ existing (fs st)).

Definition cli_Log (sev : LogSeverity) (fac msg : String) (st : CliState)
  : CliState :=
  mkCliState (fs st) (cli_log st ++ [mkLogEntry sev fac msg]).

(** [symlink(2)]: the result and [errno]; the call fails with [EEXIST]
    (17) when the link path exists. *)
Definition symlink (source target : String) (st : CliState)
  : Z * Z * CliState :=
  if bool_decide (target ∈ existing (fs st)) then ((-1)%Z, 17%Z, st)
  else
    match link_errno (fs st) target with
    | Some errno => ((-1)%Z, errno, st)
    | None =>
        (0%Z, 0%Z,
         mkCliState (mkFileSystem ({[target]} ∪ existing (fs st))
                                  (<[target := source]> (symlinks (fs st)))
                                  (link_errno (fs st)))
                    (cli_log st))
    end.

Definition features_available_dir : String :=
  SysconfDir +:+ "/icinga2/features-available".
Definition features_enabled_dir : String :=
  SysconfDir +:+ "/icinga2/features-enabled".

(** The body of the [BOOST_FOREACH] loop (lines 99-135, the branch taken
    when [_WIN32] is not defined), on the list [errors] and the state. *)
Definition Run_feature (acc : list String * CliState) (feature : String)
  : list String * CliState :=
  let '(errors, st) := acc in
  let source := features_available_dir +:+ "/" +:+ feature +:+ ".conf" in
  if negb (Utility_PathExists source st) then
    ((errors ++ [feature])%list,
     cli_Log LogCritical "cli"
       ("Cannot enable feature '" +:+ feature +:+ "'. Source file '" +:+ source
        +:+ "' does not exist.") st)
  else
    let target := features_enabled_dir +:+ "/" +:+ feature +:+ ".conf" in
    if Utility_PathExists target st then
      (errors,
       cli_Log LogWarning "cli" ("Feature '" +:+ feature +:+ "' already enabled.") st)
    else
      let st := cli_Log LogInformation "cli"
                  ("Enabling feature '" +:+ feature +:+ "' in '"
                   +:+ features_enabled_dir +:+ "'.") st in
      let '(r, errno, st) := symlink source target st in
      if (r <? 0)%Z then
        ((errors ++ [feature])%list,
         cli_Log LogCritical "cli"
           ("Cannot enable feature '" +:+ feature +:+ "'. Linking source '"
            +:+ source +:+ "' to target file '" +:+ target
            +:+ "' failed with error code " +:+ Convert_ToString_int errno
            +:+ ", " +:+ dquote +:+ Utility_FormatErrorNumber errno +:+ dquote
            +:+ ".") st)
      else (errors, st).

(** [FeatureEnableCommand::Run] (lines 77-144): the exit status and the
    state it leaves. *)
Definition Run (ap : list String) (st : CliState) : Z * CliState :=
  match ap with
  | [] =>
      (0%Z, cli_Log LogCritical "cli"
              "Cannot enable feature(s). Name(s) are missing!" st)
  | _ =>
    if negb (Utility_PathExists features_available_dir st) then
      (0%Z, cli_Log LogCritical "cli"
              ("Cannot parse available features. Path '"
               +:+ features_available_dir +:+ "' does not exist.") st)
    else if negb (Utility_PathExists features_enabled_dir st) then
      (0%Z, cli_Log LogCritical "cli"
              ("Cannot enable features. Path '" +:+ features_enabled_dir
               +:+ "' does not exist.") st)
    else
      let '(errors, st) := foldl Run_feature ([], st) ap in
      match errors with
      | [] => (0%Z, st)
      | _ =>
          (1%Z, cli_Log LogCritical "cli"
                  ("Cannot enable feature(s): " +:+ String.concat " " errors) st)
      end
  end.



(** Both feature directories exist. *)
Definition directories_exist (st : CliState) : Prop :=
  features_available_dir ∈ existing (fs st) /\
  features_enabled_dir ∈ existing (fs st).


End FeatureEnable.

(** ** A concrete instance of the collaborators, to run the model on
    examples. *)

Definition toy_externals : Externals := {|
  X509 := String;
  EVP_PKEY := String;
  X509_NAME := String;
  X509_get_pubkey := fun c => "key of " +:+ c;
  X509_get_subject_name := fun c => "subject of " +:+ c;
  PBKDF2_SHA1 := fun identity salt _ => identity +:+ "/" +:+ salt;
  CreateCertIcingaCA := fun k s => "cert(" +:+ k +:+ "," +:+ s +:+ ")";
  CertificateToString := fun c => c;
  GetIcingaCADir := "/var/lib/icinga2/ca";
  GetX509Certificate := fun f => "file " +:+ f;
  DiagnosticInformation := fun ex =>
    match ex with
    | invalid_argument what => "Error: " +:+ what
    | openssl_error _ => "Error: openssl"
    | bad_cast => "Error: std::bad_cast"
    | bad_lexical_cast => "Error: bad lexical cast"
    end;
  Convert_ToDouble := fun _ => None;
  Convert_ToString := fun _ => "Object";
|}.

Module Examples.

#[local] Existing Instance toy_externals.

Definition stream0 (inbound : list ReadEvent) : TlsStream :=
  mkTlsStream false false inbound [] "peer".

Definition client0 (inbound : list ReadEvent) : ApiClient :=
  mkApiClient 7 "agent1" true ClientRole (double_of_Z 0) [] (stream0 inbound).

Definition endpoint0 : Endpoint :=
  mkEndpoint (Some "satellite") (double_of_Z 3) (double_of_Z 5) {[7]}.

Definition world0 (inbound : list ReadEvent) : World :=
  mkWorld (client0 inbound) (Some endpoint0) (mkApiListener "salt" ∅)
          {["master"; "satellite"]} (Some "master") [] [] (double_of_Z 100) [].

Definition origin0 : MessageOrigin := mkMessageOrigin 7 (Some "satellite").

(** A connection without Endpoint, registered with the listener. *)
Definition world_anonymous : World :=
  mkWorld (mkApiClient 8 "new-agent" false ServerRole (double_of_Z 0) []
             (stream0 []))
          None (mkApiListener "salt" {[8]})
          {["master"; "satellite"]} (Some "master") [] [] (double_of_Z 100) [].

(** No ticket salt configured. *)
Definition world_nosalt : World :=
  set_listener (mkApiListener EmptyString {[8]}) world_anonymous.

(** More than 20000 messages wait in the write queue. *)
Definition world_full : World :=
  set_client
    (set_m_WriteQueue (replicate (Z.to_nat 20001) (SendMessageSync_task ∅))
       (client0 []))
    (world0 []).

Definition params_position (p : Z) : Dictionary :=
  {["log_position" := ValueNumber (double_of_Z p)]}.

(** A [log::SetLogPosition] request with timestamp [ts], new position 9
    and request id "1". *)
Definition msg_position (ts : Z) : Dictionary :=
  <["ts" := ValueNumber (double_of_Z ts)]>
    (<["id" := ValueString "1"]>
       (<["method" := ValueString "log::SetLogPosition"]>
          {["params" := ValueDictionary (params_position 9)]})).

(** A request for a method nobody registered, and a notification (no
    [id]) for the same method. *)
Definition msg_unknown : Dictionary :=
  <["id" := ValueString "2"]> {["method" := ValueString "event::Unknown"]}.
Definition msg_notification : Dictionary :=
  {["method" := ValueString "event::Unknown"]}.

Definition registry0 : Registry := registry_with (fun _ => None).

(** Worlds in which one message waits on the stream. *)
Definition world_old : World := world0 [Read_message (Some (msg_position 4))].
Definition world_tie : World := world0 [Read_message (Some (msg_position 5))].
Definition world_new : World := world0 [Read_message (Some (msg_position 6))].
Definition world_request : World := world0 [Read_message (Some msg_unknown)].
Definition world_notification : World :=
  world0 [Read_message (Some msg_notification)].

(** A registry with one more function, which always throws. *)
Definition Failing : ApiFunction :=
  fun _ _ => throw (invalid_argument "boom").
Definition registry_failing : Registry :=
  registry_with (fun name =>
    if String.eqb name "test::Failing" then Some Failing else None).

Definition params_ticket (t : String) : Dictionary :=
  {["ticket" := ValueString t]}.

#[local] Instance toy_cli : CliEnvironment := {|
  SysconfDir := "/etc";
  Convert_ToString_int := fun _ => "13";
  Utility_FormatErrorNumber := fun _ => "Permission denied";
|}.


(** The directory features-enabled is missing. *)
Definition st_no_enabled_dir : CliState :=
  mkCliState
    (mkFileSystem {["/etc/icinga2/features-available"]} ∅ (fun _ => None))
    [].

End Examples.

(** ** More of remote/apiclient.cpp and of the command *)

(** The one-character string made of a line feed. *)
Definition newline : String :=
  String.String (Ascii.Ascii false true false true false false false false)
                EmptyString.

Section SendMessageSync.
Context `{Externals}.

(** *** ApiClient::SendMessageSync (lines 85-104)

    The function handles a failing [JsonRpc::SendMessage]; the write is
    therefore a parameter here.  The lock on the stream is not
    modelled. *)
Definition SendMessageSync_with (write : Dictionary -> M unit)
    (message : Dictionary) : M unit :=
  try_catch
    (s <- gets (fun w => m_Stream (client w));;
     if stream_eof s then ret tt
     else
       write message;;
       if Value_ne_cstr (Get message "method") "log::SetLogPosition" then
         t <- Utility_GetTime;;
         modify (fun w => set_client (set_m_Seen t (client w)) w)
       else ret tt)
    (fun ex =>
       c <- gets client;;
       let info := "Error while sending JSON-RPC message for identity '"
                   +:+ m_Identity c +:+ "'" in
       Log LogWarning "ApiClient" info;;
       Log LogDebug "ApiClient"
           (info +:+ newline +:+ DiagnosticInformation ex);;
       Disconnect).

(** [SendMessageSync] with the write of the model. *)
Definition SendMessageSync : Dictionary -> M unit :=
  SendMessageSync_with JsonRpc_SendMessage.

(** [SendMessage] called once for each message of a list. *)
Fixpoint SendMessage_run (messages : list Dictionary) : M unit :=
  match messages with
  | [] => ret tt
  | m :: rest => SendMessage m;; SendMessage_run rest
  end.

End SendMessageSync.

Section FeatureEnableMore.
Context `{CliEnvironment}.




End FeatureEnableMore.

Module MoreExamples.
Import Examples.
#[local] Existing Instance toy_externals.
#[local] Existing Instance toy_cli.

(** A write that fails. *)
Definition failing_write : Dictionary -> M unit :=
  fun _ => throw (openssl_error (Some 5%Z)).

(** A message whose [ts] is not a number. *)
Definition msg_bad_ts : Dictionary :=
  <["ts" := ValueArray []]> msg_unknown.

(** A request for [log::SetLogPosition] whose [params] is a number. *)
Definition msg_bad_params : Dictionary :=
  <["id" := ValueString "3"]>
    (<["method" := ValueString "log::SetLogPosition"]>
       {["params" := ValueNumber (double_of_Z 1)]}).

(** An enrollment request with the ticket [t]. *)
Definition msg_enroll (t : String) : Dictionary :=
  <["id" := ValueString "4"]>
    (<["method" := ValueString "pki::RequestCertificate"]>
       {["params" := ValueDictionary (params_ticket t)]}).

(** The stream of [world0] at end of stream. *)
Definition world_eof : World :=
  set_client
    (set_m_Stream (mkTlsStream true false [Read_message (Some msg_unknown)] []
                     "peer") (client0 []))
    (world0 []).


End MoreExamples.

(** * Properties *)

(** ** The order of [double] *)




Lemma dlt_dle (a b : double) : dlt a b = true -> dle a b = true.
Proof.
  unfold dlt, dle, SFltb, SFleb.
  destruct (SFcompare a b) as [[]|]; congruence.
Qed.

Lemma dle_refl (a : double) : is_nan a = false -> dle a a = true.
Proof.
  unfold dle, SFleb.
  destruct a as [s|s| |s m e]; simpl; try discriminate; intros _;
    try (destruct s; reflexivity).
  destruct s; rewrite Z.compare_refl, Pos.compare_cont_refl; reflexivity.
Qed.






#[local] Ltac monad_unfold :=
  unfold bind, ret, gets, modify, lift, throw, try_catch in *.

Section HandlerProperties.
Context `{Externals}.


(** C2.  With a salt configured: a ticket equal to
    [PBKDF2_SHA1(identity, salt, 50000)] gives a result with exactly the
    fields [cert] and [ca], and the certificate is signed; any other ticket
    gives the single field [error] = "Invalid ticket." and leaves the
    world, so also the list of signed certificates, as it was. *)
Theorem RequestCertificate_ticket
    (origin : MessageOrigin) (params : Dictionary) (w : World) :
  ticket_salt (listener w) <> EmptyString ->
  let ticket := Value_to_String (Get params "ticket") in
  let realTicket :=
    PBKDF2_SHA1 (m_Identity (client w)) (ticket_salt (listener w)) 50000 in
  let peer := stream_peer_certificate (m_Stream (client w)) in
  let newcert :=
    CreateCertIcingaCA (X509_get_pubkey peer) (X509_get_subject_name peer) in
  let cacert := GetX509Certificate (GetIcingaCADir +:+ "/ca.crt") in
  (ticket = realTicket ->
   exists result : Dictionary,
     RequestCertificateHandler origin (Some params) w =
       (Normal (ValueDictionary result),
        set_ca_signed (ca_signed w ++ [newcert]) w) /\
     result !! "cert" = Some (ValueString (CertificateToString newcert)) /\
     result !! "ca" = Some (ValueString (CertificateToString cacert)) /\
     result !! "error" = None /\
     dom result = {["cert"; "ca"]}) /\
  (ticket <> realTicket ->
   RequestCertificateHandler origin (Some params) w =
     (Normal (ValueDictionary {["error" := ValueString "Invalid ticket."]}), w)).
Proof.
  intros Hsalt ticket realTicket peer newcert cacert.
  apply String.eqb_neq in Hsalt.
  split.
  - intros Heq. eexists. split.
    + unfold RequestCertificateHandler, CreateCertIcingaCA_call. monad_unfold.
      simpl. rewrite Hsalt.
      fold ticket. fold realTicket. rewrite Heq, String.eqb_refl. simpl.
      reflexivity.
    + unfold Set_. split; [| split; [| split]].
      * rewrite lookup_insert_ne by discriminate. apply lookup_insert_eq.
      * apply lookup_insert_eq.
      * rewrite !lookup_insert_ne by discriminate. apply lookup_empty.
      * rewrite !dom_insert_L, dom_empty_L. set_solver.
  - intros Hne. apply String.eqb_neq in Hne.
    unfold RequestCertificateHandler. monad_unfold. simpl. rewrite Hsalt.
    fold ticket. fold realTicket. rewrite Hne. simpl.
    unfold Set_. rewrite insert_empty. reflexivity.
Qed.

(** C3 (amended).  Without a configured salt, every call with a
    dictionary of parameters, whatever ticket or other fields it holds,
    returns the single field [error] = "Ticket salt is not configured."
    and changes nothing. *)
Theorem RequestCertificate_no_salt
    (origin : MessageOrigin) (params : Dictionary) (w : World) :
  ticket_salt (listener w) = EmptyString ->
  RequestCertificateHandler origin (Some params) w =
    (Normal (ValueDictionary
               {["error" := ValueString "Ticket salt is not configured."]}), w).
Proof.
  intros Hsalt. unfold RequestCertificateHandler. monad_unfold. simpl.
  rewrite Hsalt. simpl. unfold Set_. rewrite insert_empty. reflexivity.
Qed.

End HandlerProperties.

Section ConnectionProperties.
Context `{Externals}.

(** C4.  Above the mark of 20000 queued messages [SendMessage] logs the
    warning, queues the teardown and leaves the write queue as it was (the
    message is dropped); at or below the mark it appends the message to
    the write queue and does nothing else. *)
Theorem SendMessage_high_water_mark (message : Dictionary) (w : World) :
  let c := client w in
  ((20000 < WorkQueue_GetLength (m_WriteQueue c))%Z ->
   SendMessage message w =
     (Normal tt,
      set_async_callbacks
        (async_callbacks w ++ [DisconnectSync_callback (self c)])
        (set_log
           (log w ++
            [mkLogEntry LogWarning "remote"
               ("Closing connection for API identity '" +:+ m_Identity c
                +:+ "': Too many queued messages.")]) w))) /\
  ((WorkQueue_GetLength (m_WriteQueue c) <= 20000)%Z ->
   SendMessage message w =
     (Normal tt,
      set_client
        (set_m_WriteQueue (m_WriteQueue c ++ [SendMessageSync_task message]) c)
        w)).
Proof.
  intros c. subst c. unfold SendMessage, Disconnect, Log,
    Utility_QueueAsyncCallback, WorkQueue_Enqueue.
  monad_unfold. simpl. split; intros Hlen.
  - apply Z.ltb_lt in Hlen. rewrite Hlen. reflexivity.
  - apply Z.ltb_ge in Hlen. rewrite Hlen. reflexivity.
Qed.

Lemma DisconnectSync_self (w : World) :
  self (client (snd (DisconnectSync w))) = self (client w).
Proof.
  unfold DisconnectSync, Log, TlsStream_Close, update_stream. monad_unfold.
  simpl. destruct (m_Endpoint w); reflexivity.
Qed.

Lemma DisconnectSync_normal (w : World) : fst (DisconnectSync w) = Normal tt.
Proof.
  unfold DisconnectSync, Log, TlsStream_Close, update_stream. monad_unfold.
  simpl. destruct (m_Endpoint w); reflexivity.
Qed.

Lemma DisconnectSync_state (w : World) :
  connection_state (snd (DisconnectSync w)) =
    (Endpoint_RemoveClient (self (client w)) <$> m_Endpoint w,
     match m_Endpoint w with
     | Some _ => m_AnonymousClients (listener w)
     | None => m_AnonymousClients (listener w) ∖ {[self (client w)]}
     end,
     mkTlsStream (stream_eof (m_Stream (client w))) true
       (stream_inbound (m_Stream (client w)))
       (stream_outbound (m_Stream (client w)))
       (stream_peer_certificate (m_Stream (client w)))).
Proof.
  unfold connection_state, DisconnectSync, Log, TlsStream_Close, update_stream.
  monad_unfold. simpl. destruct (m_Endpoint w) eqn:E; simpl; rewrite ?E; reflexivity.
Qed.

Lemma DisconnectSync_connection_state (w1 w2 : World) :
  connection_state w1 = connection_state w2 ->
  self (client w1) = self (client w2) ->
  connection_state (snd (DisconnectSync w1)) =
  connection_state (snd (DisconnectSync w2)).
Proof.
  intros Hst Hself. rewrite !DisconnectSync_state.
  unfold connection_state in Hst. injection Hst; intros Hs Ha He.
  rewrite He, Ha, Hs, Hself. reflexivity.
Qed.

Lemma DisconnectSync_idempotent (w : World) :
  connection_state (snd (DisconnectSync (snd (DisconnectSync w)))) =
  connection_state (snd (DisconnectSync w)).
Proof.
  rewrite (DisconnectSync_state (snd (DisconnectSync w))).
  pose proof (DisconnectSync_state w) as Hst.
  rewrite DisconnectSync_self. rewrite Hst.
  unfold connection_state in Hst. injection Hst; intros Hs Ha He.
  rewrite He, Ha, Hs. simpl.
  assert (Htwice : forall (X : gset ClientPtr) c, X ∖ {[c]} ∖ {[c]} = X ∖ {[c]})
    by set_solver.
  destruct (m_Endpoint w) as [e|]; simpl; unfold Endpoint_RemoveClient; simpl;
    rewrite Htwice; reflexivity.
Qed.

Lemma run_callbacks_connection_state (cbs : list Callback) (w : World) :
  cbs <> [] ->
  connection_state (snd (run_callbacks cbs w)) =
  connection_state (snd (DisconnectSync w)).
Proof.
  revert w. induction cbs as [|cb rest IH]; intros w Hne; [congruence |].
  destruct cb as [c]. simpl. unfold bind.
  pose proof (DisconnectSync_normal w) as Hn.
  destruct (DisconnectSync w) as [o w1] eqn:E. simpl in Hn. subst o.
  destruct rest as [|cb' rest'].
  - reflexivity.
  - rewrite IH by discriminate.
    replace w1 with (snd (DisconnectSync w)) by (rewrite E; reflexivity).
    apply DisconnectSync_idempotent.
Qed.

Lemma Disconnect_times_spec (n : nat) (w : World) :
  Disconnect_times n w =
    (Normal tt,
     set_async_callbacks
       (async_callbacks w ++ replicate n (DisconnectSync_callback (self (client w))))
       w).
Proof.
  revert w. induction n as [|n IH]; intros w; simpl.
  - unfold ret. rewrite app_nil_r. destruct w; reflexivity.
  - unfold bind, Disconnect, Utility_QueueAsyncCallback. monad_unfold.
    rewrite IH. simpl. rewrite <- app_assoc. reflexivity.
Qed.

(** C8 (amended).  [Disconnect] has no guard: each of [n+1] calls queues
    one more [DisconnectSync].  Once the queue has run, the registration
    with the Endpoint or the anonymous set and the stream are as after a
    single call. *)
Theorem Disconnect_repeated (n : nat) (w : World) :
  async_callbacks (snd (Disconnect_times (S n) w)) =
    (async_callbacks w
     ++ replicate (S n) (DisconnectSync_callback (self (client w))))%list /\
  connection_state (snd ((Disconnect_times (S n);; run_async) w)) =
  connection_state (snd ((Disconnect;; run_async) w)).
Proof.
  split.
  - rewrite Disconnect_times_spec. reflexivity.
  - assert (Hrun : forall k,
      connection_state (snd ((Disconnect_times (S k);; run_async) w)) =
      connection_state (snd (DisconnectSync w))).
    { intros k. unfold bind at 1. rewrite Disconnect_times_spec.
      unfold run_async. monad_unfold. simpl.
      rewrite run_callbacks_connection_state.
      - apply DisconnectSync_connection_state; reflexivity.
      - destruct (async_callbacks w); discriminate. }
    rewrite (Hrun n).
    change (Disconnect;; run_async) with (Disconnect;; (ret tt;; run_async)).
    specialize (Hrun 0%nat). simpl in Hrun.
    unfold bind, ret in *. unfold bind, ret.
    destruct (Disconnect w) as [[|] ?]; simpl in *; [symmetry; exact Hrun|].
    exact (eq_sym Hrun).
Qed.

End ConnectionProperties.

Section MessageProperties.
Context `{Externals}.

Lemma Contains_Get (d : Dictionary) (key : String) (v : Value) :
  d !! key = Some v -> Contains d key = true /\ Get d key = v.
Proof. unfold Contains, Get. intros ->. split; reflexivity. Qed.

Lemma Contains_None (d : Dictionary) (key : String) :
  d !! key = None -> Contains d key = false.
Proof. unfold Contains. intros ->. reflexivity. Qed.

Lemma ProcessMessage_seen_normal (message : Dictionary) (w : World) :
  fst (ProcessMessage_seen message w) = Normal tt.
Proof.
  unfold ProcessMessage_seen, Utility_GetTime. monad_unfold.
  destruct (Value_ne_cstr _ _); reflexivity.
Qed.

(** Reading a message and refreshing [m_Seen] touches the stream input
    and [m_Seen] only. *)
Lemma received_frame (message : Dictionary) (w : World) :
  m_Endpoint (received message w) = m_Endpoint w /\
  log (received message w) = log w /\
  async_callbacks (received message w) = async_callbacks w /\
  listener (received message w) = listener w /\
  ca_signed (received message w) = ca_signed w /\
  stream_outbound (m_Stream (client (received message w))) =
    stream_outbound (m_Stream (client w)) /\
  m_WriteQueue (client (received message w)) = m_WriteQueue (client w).
Proof.
  unfold received, ProcessMessage_seen, JsonRpc_ReadMessage, update_stream,
    Utility_GetTime.
  monad_unfold. simpl.
  destruct (stream_inbound (m_Stream (client w))) as [|[m|ex] rest];
    destruct (Value_ne_cstr _ _); simpl; repeat split; reflexivity.
Qed.

(** With the stream open and a message next on it, [ProcessMessage] is
    the freshness check followed by the handling of the message. *)
Lemma ProcessMessage_read (reg : Registry) (w : World)
    (message : Dictionary) (rest : list ReadEvent) :
  stream_eof (m_Stream (client w)) = false ->
  stream_inbound (m_Stream (client w)) = Read_message (Some message) :: rest ->
  ProcessMessage reg w =
    (old <- ProcessMessage_freshness message;;
     if old then ret true else ProcessMessage_handle reg message)
      (received message w).
Proof.
  intros Heof Hin.
  unfold ProcessMessage, received, JsonRpc_ReadMessage, update_stream.
  monad_unfold. simpl. rewrite Heof, Hin. simpl.
  pose proof (ProcessMessage_seen_normal message
    (set_client
       (set_m_Stream
          {| stream_eof := stream_eof (m_Stream (client w));
             stream_closed := stream_closed (m_Stream (client w));
             stream_inbound := rest;
             stream_outbound := stream_outbound (m_Stream (client w));
             stream_peer_certificate :=
               stream_peer_certificate (m_Stream (client w)) |}
          (client w)) w)) as Hn.
  destruct (ProcessMessage_seen message _) as [o w1]. simpl in Hn. subst o.
  reflexivity.
Qed.

Lemma ProcessMessage_freshness_old (message : Dictionary) (w : World)
    (e : Endpoint) (ts : double) :
  m_Endpoint w = Some e -> message !! "ts" = Some (ValueNumber ts) ->
  dlt ts (m_RemoteLogPosition e) = true ->
  ProcessMessage_freshness message w = (Normal true, w).
Proof.
  intros He [Hc Hg]%Contains_Get Hlt. unfold ProcessMessage_freshness.
  monad_unfold. rewrite He, Hc, Hg. simpl. rewrite Hlt. reflexivity.
Qed.

Lemma ProcessMessage_freshness_new (message : Dictionary) (w : World)
    (e : Endpoint) (ts : double) :
  m_Endpoint w = Some e -> message !! "ts" = Some (ValueNumber ts) ->
  dlt ts (m_RemoteLogPosition e) = false ->
  ProcessMessage_freshness message w =
    (Normal false,
     set_m_Endpoint (Some (Endpoint_SetRemoteLogPosition ts e)) w).
Proof.
  intros He [Hc Hg]%Contains_Get Hlt. unfold ProcessMessage_freshness.
  monad_unfold. rewrite He, Hc, Hg. simpl. rewrite Hlt. reflexivity.
Qed.

(** C1 (amended).  For a message with a numeric [ts] from a sender with
    an Endpoint: when [ts] is strictly below [remoteLogPosition],
    [ProcessMessage] returns true in the world left by the read (the
    Endpoint, the log and the output of the stream are as before, whatever
    the registry holds); when [ts] is not below it, equal included,
    [remoteLogPosition] is [ts] in the world the message is handled in. *)
Theorem ProcessMessage_ts (reg : Registry) (w : World)
    (message : Dictionary) (rest : list ReadEvent) (e : Endpoint) (ts : double) :
  stream_eof (m_Stream (client w)) = false ->
  stream_inbound (m_Stream (client w)) = Read_message (Some message) :: rest ->
  m_Endpoint w = Some e ->
  message !! "ts" = Some (ValueNumber ts) ->
  let w1 := received message w in
  (dlt ts (m_RemoteLogPosition e) = true ->
   ProcessMessage reg w = (Normal true, w1) /\
   m_Endpoint w1 = Some e /\ log w1 = log w /\
   stream_outbound (m_Stream (client w1)) = stream_outbound (m_Stream (client w))) /\
  (dlt ts (m_RemoteLogPosition e) = false ->
   ProcessMessage reg w =
     ProcessMessage_handle reg message
       (set_m_Endpoint (Some (Endpoint_SetRemoteLogPosition ts e)) w1)).
Proof.
  intros Heof Hin He Hts w1.
  destruct (received_frame message w) as (Hfe & Hfl & _ & _ & _ & Hfo & _).
  fold w1 in Hfe, Hfl, Hfo. rewrite He in Hfe.
  split; intros Hlt.
  - split; [| repeat split; assumption].
    rewrite (ProcessMessage_read reg w message rest Heof Hin). fold w1.
    unfold bind.
    rewrite (ProcessMessage_freshness_old message w1 e ts Hfe Hts Hlt).
    reflexivity.
  - rewrite (ProcessMessage_read reg w message rest Heof Hin). fold w1.
    unfold bind.
    rewrite (ProcessMessage_freshness_new message w1 e ts Hfe Hts Hlt).
    reflexivity.
Qed.

(** The dispatch always returns a [resultMessage], and that one has
    exactly one of [result] and [error]. *)
Lemma ProcessMessage_dispatch_returns (reg : Registry) (origin : MessageOrigin)
    (message : Dictionary) (method : String) (w : World) :
  exists (resultMessage : Dictionary) (w' : World),
    ProcessMessage_dispatch reg origin message method w
      = (Normal resultMessage, w') /\
    exactly_one_of_result_error resultMessage.
Proof.
  unfold ProcessMessage_dispatch, exactly_one_of_result_error, Set_.
  monad_unfold.
  destruct (reg method) as [afunc|].
  - destruct (Value_to_DictionaryPtr (Get message "params")) as [params|ex].
    + destruct (afunc origin params w) as [[v|ex] w'].
      * eexists _, _. split; [reflexivity|]. left.
        split; [rewrite lookup_insert_eq; eauto | reflexivity].
      * eexists _, _. split; [reflexivity|]. right.
        split; [reflexivity | rewrite lookup_insert_eq; eauto].
    + eexists _, _. split; [reflexivity|]. right.
      split; [reflexivity | rewrite lookup_insert_eq; eauto].
  - eexists _, _. split; [reflexivity|]. right.
    split; [reflexivity | rewrite lookup_insert_eq; eauto].
Qed.

(** C6.  The dispatch never throws.  For a method without registered
    function the result is the single field [error], the diagnostic text
    of [invalid_argument("Function '<method>' does not exist.")], and
    nothing else changes; an exception thrown by a registered function
    becomes the single field [error] in the same way. *)
Theorem ProcessMessage_dispatch_errors (reg : Registry) (origin : MessageOrigin)
    (message : Dictionary) (method : String) (w : World) :
  (exists (resultMessage : Dictionary) (w' : World),
     ProcessMessage_dispatch reg origin message method w
       = (Normal resultMessage, w')) /\
  (reg method = None ->
   ProcessMessage_dispatch reg origin message method w =
     (Normal {["error" :=
                ValueString
                  (DiagnosticInformation
                     (invalid_argument
                        ("Function '" +:+ method +:+ "' does not exist.")))]},
      w)) /\
  (forall (afunc : ApiFunction) (params : option Dictionary)
          (ex : exception) (w' : World),
     reg method = Some afunc ->
     Value_to_DictionaryPtr (Get message "params") = Normal params ->
     afunc origin params w = (Thrown ex, w') ->
     ProcessMessage_dispatch reg origin message method w =
       (Normal {["error" := ValueString (DiagnosticInformation ex)]}, w')).
Proof.
  split; [| split].
  - destruct (ProcessMessage_dispatch_returns reg origin message method w)
      as (rm & w' & Hd & _).
    eauto.
  - intros Hreg. unfold ProcessMessage_dispatch, Set_. monad_unfold.
    rewrite Hreg, insert_empty. reflexivity.
  - intros afunc params ex w' Hreg Hp Hf.
    unfold ProcessMessage_dispatch, Set_. monad_unfold.
    rewrite Hreg, Hp, Hf, insert_empty. reflexivity.
Qed.

End MessageProperties.

Section ResponseProperties.
Context `{Externals}.

Lemma response_fields (message resultMessage : Dictionary) :
  response message resultMessage !! "id" = Some (Get message "id") /\
  response message resultMessage !! "jsonrpc" = Some (ValueString "2.0") /\
  response message resultMessage !! "result" = resultMessage !! "result" /\
  response message resultMessage !! "error" = resultMessage !! "error".
Proof.
  unfold response, Set_. repeat split.
  - apply lookup_insert_eq.
  - rewrite lookup_insert_ne by discriminate. apply lookup_insert_eq.
  - rewrite !lookup_insert_ne by discriminate. reflexivity.
  - rewrite !lookup_insert_ne by discriminate. reflexivity.
Qed.

Lemma ProcessMessage_invoke_returns (reg : Registry) (message : Dictionary)
    (w : World) :
  exists (resultMessage : Dictionary) (w' : World),
    ProcessMessage_invoke reg message w = (Normal resultMessage, w') /\
    exactly_one_of_result_error resultMessage.
Proof.
  unfold ProcessMessage_invoke, ProcessMessage_origin, Zone_GetByName, Log.
  monad_unfold.
  destruct (m_Endpoint w) as [e|]; simpl.
  - destruct (negb (bool_decide (m_Zone e = local_zone w)));
      apply ProcessMessage_dispatch_returns.
  - apply ProcessMessage_dispatch_returns.
Qed.

(** C5.  A message that passed the freshness check and has an [id] is
    answered by exactly one message written to the stream after the
    function ran; the answer has the [id] of the request, [jsonrpc] =
    "2.0" and exactly one of [result] and [error].  Without [id] nothing
    is written.  In both cases [ProcessMessage] returns true. *)
Theorem ProcessMessage_response (reg : Registry) (w w2 : World)
    (message : Dictionary) (rest : list ReadEvent) :
  stream_eof (m_Stream (client w)) = false ->
  stream_inbound (m_Stream (client w)) = Read_message (Some message) :: rest ->
  ProcessMessage_freshness message (received message w) = (Normal false, w2) ->
  exists (resultMessage : Dictionary) (w3 : World),
    ProcessMessage_invoke reg message w2 = (Normal resultMessage, w3) /\
    exactly_one_of_result_error resultMessage /\
    let r := response message resultMessage in
    let w4 := snd (JsonRpc_SendMessage r w3) in
    (forall id : Value,
       message !! "id" = Some id ->
       ProcessMessage reg w = (Normal true, w4) /\
       stream_outbound (m_Stream (client w4)) =
         (stream_outbound (m_Stream (client w3)) ++ [r])%list /\
       r !! "id" = Some id /\
       r !! "jsonrpc" = Some (ValueString "2.0") /\
       exactly_one_of_result_error r) /\
    (message !! "id" = None -> ProcessMessage reg w = (Normal true, w3)).
Proof.
  intros Heof Hin Hfresh.
  destruct (ProcessMessage_invoke_returns reg message w2)
    as (rm & w3 & Hinv & Hone).
  exists rm, w3. split; [exact Hinv|]. split; [exact Hone|].
  intros r w4.
  assert (Hpm : ProcessMessage reg w =
                (ProcessMessage_reply message rm;; ret true) w3).
  { rewrite (ProcessMessage_read reg w message rest Heof Hin).
    unfold bind at 1. rewrite Hfresh. unfold ProcessMessage_handle.
    unfold bind at 1. rewrite Hinv. reflexivity. }
  destruct (response_fields message rm) as (Hid & Hrpc & Hres & Herr).
  split.
  - intros id Hmid. destruct (Contains_Get _ _ _ Hmid) as [Hc Hg].
    split; [| split; [| split; [| split]]].
    + rewrite Hpm. unfold ProcessMessage_reply. rewrite Hc. reflexivity.
    + reflexivity.
    + subst r. rewrite Hid, Hg. reflexivity.
    + exact Hrpc.
    + subst r. unfold exactly_one_of_result_error. rewrite Hres, Herr.
      exact Hone.
  - intros Hmid. rewrite Hpm. unfold ProcessMessage_reply.
    rewrite (Contains_None _ _ Hmid). reflexivity.
Qed.






End ResponseProperties.

(** ** The "feature enable" command *)


Section FeatureEnableProperties.
Context `{CliEnvironment}.










End FeatureEnableProperties.

(** * The model on concrete inputs *)

Module Runs.
Import Examples.
#[local] Existing Instance toy_externals.
#[local] Existing Instance toy_cli.

#[local] Ltac by_computation := vm_compute; repeat split; trivial.

(** C1, as stated, fails on a tie: the stored [remoteLogPosition] is 5
    and the message carries [ts] = 5, so [ts <= remoteLogPosition]; the
    message is dispatched all the same: [SetLogPositionHandler] moves
    [localLogPosition] from 3 to 9 and a response is written. *)
Lemma ProcessMessage_tie_is_dispatched :
  msg_position 5 !! "ts" = Some (ValueNumber (double_of_Z 5)) /\
  m_RemoteLogPosition <$> m_Endpoint world_tie = Some (double_of_Z 5) /\
  dle (double_of_Z 5) (double_of_Z 5) = true /\
  fst (ProcessMessage registry0 world_tie) = Normal true /\
  m_LocalLogPosition <$> m_Endpoint world_tie = Some (double_of_Z 3) /\
  m_LocalLogPosition <$> m_Endpoint (snd (ProcessMessage registry0 world_tie)) =
    Some (double_of_Z 9) /\
  length (stream_outbound
            (m_Stream (client (snd (ProcessMessage registry0 world_tie))))) =
    1%nat /\
  length (log (snd (ProcessMessage registry0 world_tie))) = 1%nat.
Proof. by_computation. Qed.

(** C1 (amended) on a message older than the stored position (4 < 5) and
    on a newer one (6). *)
Lemma ProcessMessage_ts_witness :
  ProcessMessage registry0 world_old =
    (Normal true, received (msg_position 4) world_old) /\
  ProcessMessage registry0 world_new =
    ProcessMessage_handle registry0 (msg_position 6)
      (set_m_Endpoint
         (Some (Endpoint_SetRemoteLogPosition (double_of_Z 6) endpoint0))
         (received (msg_position 6) world_new)).
Proof.
  split.
  - refine (proj1 (proj1 (ProcessMessage_ts registry0 world_old (msg_position 4)
                            [] endpoint0 (double_of_Z 4) _ _ _ _) _));
      by_computation.
  - refine (proj2 (ProcessMessage_ts registry0 world_new (msg_position 6) []
                     endpoint0 (double_of_Z 6) _ _ _ _) _);
      by_computation.
Defined.

(** C2 on the right ticket and on a wrong one. *)
Lemma RequestCertificate_ticket_witness :
  (exists result : Dictionary,
     fst (RequestCertificateHandler origin0
            (Some (params_ticket "agent1/salt")) (world0 [])) =
       Normal (ValueDictionary result) /\
     result !! "cert" = Some (ValueString "cert(key of peer,subject of peer)") /\
     result !! "error" = None) /\
  RequestCertificateHandler origin0 (Some (params_ticket "guess")) (world0 []) =
    (Normal (ValueDictionary {["error" := ValueString "Invalid ticket."]}),
     world0 []).
Proof.
  assert (Hsalt : ticket_salt (listener (world0 [])) <> EmptyString)
    by discriminate.
  pose proof (RequestCertificate_ticket origin0 (params_ticket "agent1/salt")
                (world0 []) Hsalt) as [Hgood _].
  pose proof (RequestCertificate_ticket origin0 (params_ticket "guess")
                (world0 []) Hsalt) as [_ Hbad].
  split.
  - destruct (Hgood eq_refl) as (result & Hrun & Hcert & _ & Herr & _).
    exists result. rewrite Hrun. repeat split; assumption.
  - apply Hbad. discriminate.
Defined.

(** C3, as stated, fails for a null [params]: without salt the handler
    still returns the empty value, which has no [error] field. *)
Lemma RequestCertificate_no_salt_null_params :
  ticket_salt (listener world_nosalt) = EmptyString /\
  RequestCertificateHandler origin0 None world_nosalt = (Normal Empty, world_nosalt).
Proof. split; reflexivity. Qed.

(** C3 (amended) on a request with a ticket. *)
Lemma RequestCertificate_no_salt_witness :
  RequestCertificateHandler origin0 (Some (params_ticket "agent1/salt"))
    world_nosalt =
    (Normal (ValueDictionary
               {["error" := ValueString "Ticket salt is not configured."]}),
     world_nosalt).
Proof.
  apply (RequestCertificate_no_salt origin0 (params_ticket "agent1/salt")
           world_nosalt).
  reflexivity.
Defined.


(** C4 on a queue of 20001 messages and on an empty one. *)
Lemma SendMessage_high_water_mark_witness :
  async_callbacks (snd (SendMessage msg_unknown world_full)) =
    [DisconnectSync_callback 7] /\
  length (m_WriteQueue (client (snd (SendMessage msg_unknown world_full)))) =
    Z.to_nat 20001 /\
  SendMessage msg_unknown (world0 []) =
    (Normal tt,
     set_client (set_m_WriteQueue [SendMessageSync_task msg_unknown] (client0 []))
       (world0 [])).
Proof.
  assert (Hfull : (20000 < WorkQueue_GetLength (m_WriteQueue (client world_full)))%Z)
    by (vm_compute; reflexivity).
  assert (Hlow : (WorkQueue_GetLength (m_WriteQueue (client (world0 []))) <= 20000)%Z)
    by (vm_compute; discriminate).
  rewrite (proj1 (SendMessage_high_water_mark msg_unknown world_full) Hfull).
  rewrite (proj2 (SendMessage_high_water_mark msg_unknown (world0 [])) Hlow).
  split; [reflexivity | split; [| reflexivity]].
  cbn. apply length_replicate.
Defined.

(** C8, as stated, fails: a second call of [Disconnect] is not a no-op.
    It queues a second [DisconnectSync], and when the queue has run the
    log holds two disconnect warnings instead of one. *)
Lemma Disconnect_twice_schedules_twice :
  async_callbacks (snd (Disconnect_times 1 (world0 []))) =
    [DisconnectSync_callback 7] /\
  async_callbacks (snd (Disconnect_times 2 (world0 []))) =
    [DisconnectSync_callback 7; DisconnectSync_callback 7] /\
  snd (Disconnect_times 2 (world0 [])) <> snd (Disconnect_times 1 (world0 [])) /\
  length (log (snd ((Disconnect_times 1;; run_async) (world0 [])))) = 1%nat /\
  length (log (snd ((Disconnect_times 2;; run_async) (world0 [])))) = 2%nat.
Proof.
  split; [reflexivity | split; [reflexivity | split; [| by_computation]]].
  intros Heq. apply (f_equal async_callbacks) in Heq. discriminate Heq.
Qed.

(** C6 on a method nobody registered and on a function that throws. *)
Lemma ProcessMessage_dispatch_errors_witness :
  ProcessMessage_dispatch registry_failing origin0 msg_unknown "event::Unknown"
    (world0 []) =
    (Normal {["error" :=
               ValueString "Error: Function 'event::Unknown' does not exist."]},
     world0 []) /\
  ProcessMessage_dispatch registry_failing origin0 msg_unknown "test::Failing"
    (world0 []) =
    (Normal {["error" := ValueString "Error: boom"]}, world0 []).
Proof.
  split.
  - apply (proj1 (proj2 (ProcessMessage_dispatch_errors registry_failing origin0
                           msg_unknown "event::Unknown" (world0 [])))).
    reflexivity.
  - apply (proj2 (proj2 (ProcessMessage_dispatch_errors registry_failing origin0
                           msg_unknown "test::Failing" (world0 [])))
             Failing None (invalid_argument "boom") (world0 []));
      reflexivity.
Defined.

(** C5 on a request with [id] "2" and on a notification without [id]. *)
Lemma ProcessMessage_response_witness :
  fst (ProcessMessage registry0 world_request) = Normal true /\
  (exists r : Dictionary,
     stream_outbound
       (m_Stream (client (snd (ProcessMessage registry0 world_request)))) = [r] /\
     r !! "id" = Some (ValueString "2") /\
     r !! "jsonrpc" = Some (ValueString "2.0") /\
     exactly_one_of_result_error r) /\
  fst (ProcessMessage registry0 world_notification) = Normal true /\
  stream_outbound
    (m_Stream (client (snd (ProcessMessage registry0 world_notification)))) = [].
Proof.
  destruct (ProcessMessage_response registry0 world_request
              (received msg_unknown world_request)
              msg_unknown [] eq_refl eq_refl eq_refl)
    as (rm & w3 & Hinv & _ & Hid & _).
  destruct (ProcessMessage_response registry0 world_notification
              (received msg_notification world_notification)
              msg_notification [] eq_refl eq_refl eq_refl)
    as (rm' & w3' & Hinv' & _ & _ & Hnoid).
  destruct (Hid (ValueString "2") eq_refl) as (Hrun & Hout & Hrid & Hrpc & Hone).
  specialize (Hnoid eq_refl).
  rewrite Hrun, Hnoid. cbn [fst snd].
  vm_compute in Hinv. injection Hinv as <- <-.
  vm_compute in Hinv'. injection Hinv' as <- <-.
  split; [reflexivity |]. split.
  - eexists. split; [| split; [exact Hrid | split; [exact Hrpc | exact Hone]]].
    rewrite Hout. reflexivity.
  - split; reflexivity.
Defined.




End Runs.

(** * More properties of the connection *)

Section ReadProperties.
Context `{Externals}.

(** X1.  At end of stream [ProcessMessage] reads nothing: it queues one
    [DisconnectSync] for this connection and returns false. *)
Theorem ProcessMessage_at_eof (reg : Registry) (w : World) :
  stream_eof (m_Stream (client w)) = true ->
  ProcessMessage reg w =
    (Normal false,
     set_async_callbacks
       (async_callbacks w ++ [DisconnectSync_callback (self (client w))]) w).
Proof.
  intros Heof. unfold ProcessMessage, Disconnect, Utility_QueueAsyncCallback.
  monad_unfold. rewrite Heof. reflexivity.
Qed.

(** X2.  What a read that delivers no message does to an open stream:
    an [openssl_error] with code 0 (clean close) and a null message make
    [ProcessMessage] return false; every other exception of the read
    leaves [ProcessMessage] as it is; with nothing buffered the result is
    false and the world is untouched.  In each case only the read event is
    consumed. *)
Theorem ProcessMessage_without_message (reg : Registry) (w : World) :
  stream_eof (m_Stream (client w)) = false ->
  (stream_inbound (m_Stream (client w)) = [] ->
   ProcessMessage reg w = (Normal false, w)) /\
  (forall (ev : ReadEvent) (rest : list ReadEvent),
     stream_inbound (m_Stream (client w)) = ev :: rest ->
     let w' := snd (JsonRpc_ReadMessage w) in
     (ev = Read_throws (openssl_error (Some 0%Z)) ->
      ProcessMessage reg w = (Normal false, w')) /\
     (ev = Read_message None -> ProcessMessage reg w = (Normal false, w')) /\
     (forall ex : exception,
        ev = Read_throws ex -> ex <> openssl_error (Some 0%Z) ->
        ProcessMessage reg w = (Thrown ex, w'))).
Proof.
  intros Heof. split.
  - intros Hin. unfold ProcessMessage, JsonRpc_ReadMessage. monad_unfold.
    rewrite Heof, Hin. reflexivity.
  - intros ev rest Hin w'. subst w'.
    unfold ProcessMessage, JsonRpc_ReadMessage, update_stream. monad_unfold.
    cbn [fst snd]. rewrite Heof, Hin. split; [| split].
    + intros ->. reflexivity.
    + intros ->. reflexivity.
    + intros ex -> Hne. cbn.
      destruct ex as [what | [code|] | |]; try reflexivity.
      destruct code as [|p|p]; try reflexivity. congruence.
Qed.

(** X3.  A message that is dropped as old still counts as a sign of
    life: after [ProcessMessage], [m_Seen] is the current time, unless the
    method is [log::SetLogPosition], for which [m_Seen] keeps its value. *)
Theorem ProcessMessage_old_message_seen (reg : Registry) (w : World)
    (message : Dictionary) (rest : list ReadEvent) (e : Endpoint) (ts : double) :
  stream_eof (m_Stream (client w)) = false ->
  stream_inbound (m_Stream (client w)) = Read_message (Some message) :: rest ->
  m_Endpoint w = Some e ->
  message !! "ts" = Some (ValueNumber ts) ->
  dlt ts (m_RemoteLogPosition e) = true ->
  m_Seen (client (snd (ProcessMessage reg w))) =
    if Value_ne_cstr (Get message "method") "log::SetLogPosition"
    then now w else m_Seen (client w).
Proof.
  intros Heof Hin He Hts Hlt.
  rewrite (ProcessMessage_read reg w message rest Heof Hin).
  destruct (received_frame message w) as (Hfe & _).
  rewrite He in Hfe. unfold bind.
  rewrite (ProcessMessage_freshness_old message _ e ts Hfe Hts Hlt).
  cbn [snd ret].
  unfold received, ProcessMessage_seen, JsonRpc_ReadMessage, update_stream,
    Utility_GetTime.
  monad_unfold. cbn [fst snd]. rewrite Hin.
  destruct (Value_ne_cstr _ _); reflexivity.
Qed.

(** X4.  The freshness check applies only to a connection with an
    Endpoint and to a message with [ts]: without Endpoint, or without
    [ts], every message read from the stream is handled, whatever value
    [ts] has (it is not even converted) and with no change to the stored
    positions. *)
Theorem ProcessMessage_without_freshness_check (reg : Registry) (w : World)
    (message : Dictionary) (rest : list ReadEvent) :
  stream_eof (m_Stream (client w)) = false ->
  stream_inbound (m_Stream (client w)) = Read_message (Some message) :: rest ->
  m_Endpoint w = None \/ message !! "ts" = None ->
  ProcessMessage_freshness message (received message w) =
    (Normal false, received message w) /\
  ProcessMessage reg w = ProcessMessage_handle reg message (received message w).
Proof.
  intros Heof Hin Hor.
  destruct (received_frame message w) as (Hfe & _).
  assert (Hfresh : ProcessMessage_freshness message (received message w) =
                   (Normal false, received message w)).
  { unfold ProcessMessage_freshness. monad_unfold. rewrite Hfe.
    destruct Hor as [-> | Hts]; [reflexivity |].
    rewrite (Contains_None _ _ Hts).
    destruct (m_Endpoint w); reflexivity. }
  split; [exact Hfresh |].
  rewrite (ProcessMessage_read reg w message rest Heof Hin).
  unfold bind. rewrite Hfresh. reflexivity.
Qed.

(** X5.  The conversion of [ts] on line 153 is outside the [try] block:
    when the sender has an Endpoint and [ts] does not convert to a
    number, the exception leaves [ProcessMessage]; nothing is dispatched,
    logged or answered, and the stored positions stay. *)
Theorem ProcessMessage_ts_conversion_throws (reg : Registry) (w : World)
    (message : Dictionary) (rest : list ReadEvent) (e : Endpoint)
    (v : Value) (ex : exception) :
  stream_eof (m_Stream (client w)) = false ->
  stream_inbound (m_Stream (client w)) = Read_message (Some message) :: rest ->
  m_Endpoint w = Some e ->
  message !! "ts" = Some v ->
  Value_to_double v = Thrown ex ->
  ProcessMessage reg w = (Thrown ex, received message w).
Proof.
  intros Heof Hin He Hts Hconv.
  rewrite (ProcessMessage_read reg w message rest Heof Hin).
  destruct (received_frame message w) as (Hfe & _). rewrite He in Hfe.
  destruct (Contains_Get _ _ _ Hts) as [Hc Hg].
  unfold bind at 1. unfold ProcessMessage_freshness. monad_unfold.
  rewrite Hfe, Hc, Hg, Hconv. reflexivity.
Qed.

(** X6.  The origin of a message: [FromClient] is always this
    connection, and the world is not changed.  For a sender whose zone is
    not the local zone, [FromZone] is that zone whatever the message says
    in [originZone]; a sender of the local zone gets the zone named by
    [originZone] when it exists and no zone otherwise; a sender without
    Endpoint gets no zone. *)
Theorem ProcessMessage_origin_zone (message : Dictionary) (w : World) :
  exists o : MessageOrigin,
    ProcessMessage_origin message w = (Normal o, w) /\
    FromClient o = self (client w) /\
    (m_Endpoint w = None -> FromZone o = None) /\
    (forall e : Endpoint,
       m_Endpoint w = Some e ->
       (m_Zone e <> local_zone w -> FromZone o = m_Zone e) /\
       (m_Zone e = local_zone w ->
        let name := Value_to_String (Get message "originZone") in
        (name ∈ zones w -> FromZone o = Some name) /\
        (name ∉ zones w -> FromZone o = None))).
Proof.
  unfold ProcessMessage_origin, Zone_GetByName. monad_unfold.
  destruct (m_Endpoint w) as [e|] eqn:He.
  - destruct (decide (m_Zone e = local_zone w)) as [Hz | Hz].
    + rewrite (bool_decide_eq_true_2 _ Hz). cbn [negb].
      eexists. split; [reflexivity |]. split; [reflexivity |].
      split; [discriminate |]. intros e' [= <-]. split; [contradiction |].
      intros _. cbv zeta. cbn [FromZone].
      split; intros Hn; destruct (decide _); try reflexivity; contradiction.
    + rewrite (bool_decide_eq_false_2 _ Hz). cbn [negb].
      eexists. split; [reflexivity |]. split; [reflexivity |].
      split; [discriminate |]. intros e' [= <-]. split; [reflexivity |].
      contradiction.
  - eexists. split; [reflexivity |]. split; [reflexivity |].
    split; [reflexivity |]. discriminate.
Qed.

(** X7.  When [params] does not convert to a dictionary pointer, the
    registered function is not invoked: the dispatch returns the single
    field [error] with the diagnostic text of the conversion error and
    leaves the world as it is. *)
Theorem ProcessMessage_dispatch_bad_params (reg : Registry)
    (origin : MessageOrigin) (message : Dictionary) (method : String)
    (w : World) (afunc : ApiFunction) (ex : exception) :
  reg method = Some afunc ->
  Value_to_DictionaryPtr (Get message "params") = Thrown ex ->
  ProcessMessage_dispatch reg origin message method w =
    (Normal {["error" := ValueString (DiagnosticInformation ex)]}, w).
Proof.
  intros Hreg Hconv. unfold ProcessMessage_dispatch, Set_. monad_unfold.
  rewrite Hreg, Hconv, insert_empty. reflexivity.
Qed.

End ReadProperties.

Section MoreHandlerProperties.
Context `{Externals}.

Lemma set_ca_signed_same (w : World) : set_ca_signed (ca_signed w) w = w.
Proof. destruct w; reflexivity. Qed.

Lemma app_singleton_ne {A : Type} (l : list A) (x : A) : (l ++ [x])%list <> l.
Proof.
  intros Heq. apply (f_equal length) in Heq.
  rewrite length_app in Heq. cbn in Heq. lia.
Qed.

(** [RequestCertificateHandler] by cases. *)
Lemma RequestCertificateHandler_cases (origin : MessageOrigin)
    (params : option Dictionary) (w : World) :
  RequestCertificateHandler origin params w =
    match params with
    | None => (Normal Empty, w)
    | Some p =>
        if String.eqb (ticket_salt (listener w)) EmptyString then
          (Normal (ValueDictionary
                     {["error" := ValueString "Ticket salt is not configured."]}),
           w)
        else if String.eqb (Value_to_String (Get p "ticket"))
                  (PBKDF2_SHA1 (m_Identity (client w))
                     (ticket_salt (listener w)) 50000) then
          let peer := stream_peer_certificate (m_Stream (client w)) in
          let newcert :=
            CreateCertIcingaCA (X509_get_pubkey peer)
              (X509_get_subject_name peer) in
          (Normal (ValueDictionary
                     (<["ca" := ValueString
                                  (CertificateToString
                                     (GetX509Certificate
                                        (GetIcingaCADir +:+ "/ca.crt")))]>
                        {["cert" := ValueString (CertificateToString newcert)]})),
           set_ca_signed (ca_signed w ++ [newcert]) w)
        else
          (Normal (ValueDictionary {["error" := ValueString "Invalid ticket."]}),
           w)
    end.
Proof.
  destruct params as [p|]; [| reflexivity].
  unfold RequestCertificateHandler, CreateCertIcingaCA_call, Set_.
  monad_unfold. cbn [fst snd].
  destruct (String.eqb (ticket_salt (listener w)) EmptyString).
  - rewrite insert_empty. reflexivity.
  - destruct (String.eqb _ _); cbn [negb].
    + rewrite insert_empty. reflexivity.
    + rewrite insert_empty. reflexivity.
Qed.

(** X8.  [RequestCertificateHandler] never throws and changes nothing but
    the list of signed certificates.  It signs a certificate exactly when
    [params] is not null, a salt is configured and the ticket is the one
    computed from the identity of the connection; it then signs one
    certificate, for the key and the subject of the certificate the peer
    presented on the stream. *)
Theorem RequestCertificate_signs_iff (origin : MessageOrigin)
    (params : option Dictionary) (w : World) :
  let r := RequestCertificateHandler origin params w in
  let peer := stream_peer_certificate (m_Stream (client w)) in
  let newcert :=
    CreateCertIcingaCA (X509_get_pubkey peer) (X509_get_subject_name peer) in
  (exists v : Value, fst r = Normal v) /\
  snd r = set_ca_signed (ca_signed (snd r)) w /\
  (ca_signed (snd r) = ca_signed w \/
   ca_signed (snd r) = (ca_signed w ++ [newcert])%list) /\
  (ca_signed (snd r) <> ca_signed w <->
   exists p : Dictionary,
     params = Some p /\
     ticket_salt (listener w) <> EmptyString /\
     Value_to_String (Get p "ticket") =
       PBKDF2_SHA1 (m_Identity (client w)) (ticket_salt (listener w)) 50000).
Proof.
  intros r peer newcert. subst r.
  rewrite RequestCertificateHandler_cases.
  destruct params as [p|].
  - destruct (String.eqb (ticket_salt (listener w)) EmptyString) eqn:Hsalt.
    + cbn [fst snd]. rewrite set_ca_signed_same.
      split; [eauto |]. split; [reflexivity |]. split; [left; reflexivity |].
      split; [congruence |]. intros (p' & _ & Hne & _).
      apply String.eqb_eq in Hsalt. contradiction.
    + destruct (String.eqb (Value_to_String (Get p "ticket")) _) eqn:Ht.
      * cbn [fst snd]. split; [eauto |].
        split; [destruct w; reflexivity |].
        split; [right; reflexivity |]. split.
        -- intros _. exists p. split; [reflexivity |].
           apply String.eqb_neq in Hsalt. apply String.eqb_eq in Ht.
           split; assumption.
        -- intros _. apply app_singleton_ne.
      * cbn [fst snd]. rewrite set_ca_signed_same.
        split; [eauto |]. split; [reflexivity |]. split; [left; reflexivity |].
        split; [congruence |]. intros (p' & [= <-] & _ & Heq).
        apply String.eqb_neq in Ht. contradiction.
  - cbn [fst snd]. rewrite set_ca_signed_same.
    split; [eauto |]. split; [reflexivity |]. split; [left; reflexivity |].
    split; [congruence |]. intros (p' & Hp & _). discriminate Hp.
Qed.

(** X9.  Of [params] only the field [ticket] counts: two calls whose
    parameters give the same ticket text have the same result and the same
    effect, whatever else the parameters hold. *)
Theorem RequestCertificate_reads_only_ticket (origin origin' : MessageOrigin)
    (p p' : Dictionary) (w : World) :
  Value_to_String (Get p "ticket") = Value_to_String (Get p' "ticket") ->
  RequestCertificateHandler origin (Some p) w =
  RequestCertificateHandler origin' (Some p') w.
Proof.
  intros Heq. rewrite !RequestCertificateHandler_cases, Heq. reflexivity.
Qed.

(** X10.  For every [params], of whatever shape, [SetLogPositionHandler]
    returns the empty value or throws the conversion error of
    [log_position], and changes at most [localLogPosition] of the
    Endpoint: the new value is not below the old one and is not a NaN when
    the old one was not. *)
Theorem SetLogPositionHandler_any_params (origin : MessageOrigin)
    (params : option Dictionary) (w : World) (e : Endpoint) :
  m_Endpoint w = Some e ->
  is_nan (m_LocalLogPosition e) = false ->
  let r := SetLogPositionHandler origin params w in
  (fst r = Normal Empty \/ exists ex : exception, fst r = Thrown ex) /\
  exists local' : double,
    snd r = set_m_Endpoint (Some (Endpoint_SetLocalLogPosition local' e)) w /\
    dle (m_LocalLogPosition e) local' = true /\
    is_nan local' = false.
Proof.
  intros He Hnan r. subst r.
  assert (Hsame : w = set_m_Endpoint
            (Some (Endpoint_SetLocalLogPosition (m_LocalLogPosition e) e)) w).
  { destruct w, e; cbn in *. subst. reflexivity. }
  unfold SetLogPositionHandler. monad_unfold.
  destruct params as [p|].
  - destruct (Value_to_double (Get p "log_position")) as [d | ex].
    + rewrite He.
      destruct (dgt d (m_LocalLogPosition e)) eqn:Hgt; cbn [fst snd].
      * split; [left; reflexivity |]. exists d.
        split; [reflexivity |]. split; [apply dlt_dle; exact Hgt |].
        destruct d; try reflexivity.
        unfold dgt, SFltb in Hgt.
        destruct (m_LocalLogPosition e); cbn in Hgt; discriminate Hgt.
      * split; [left; reflexivity |]. exists (m_LocalLogPosition e).
        split; [exact Hsame |]. split; [now apply dle_refl | exact Hnan].
    + cbn [fst snd]. split; [right; eauto |]. exists (m_LocalLogPosition e).
      split; [exact Hsame |]. split; [now apply dle_refl | exact Hnan].
  - cbn [fst snd]. split; [left; reflexivity |]. exists (m_LocalLogPosition e).
    split; [exact Hsame |]. split; [now apply dle_refl | exact Hnan].
Qed.

End MoreHandlerProperties.

Section QueueProperties.
Context `{Externals}.

Lemma SendMessage_cases (message : Dictionary) (w : World) :
  SendMessage message w =
    (Normal tt,
     if (20000 <? WorkQueue_GetLength (m_WriteQueue (client w)))%Z then
       set_async_callbacks
         (async_callbacks w ++ [DisconnectSync_callback (self (client w))])
         (set_log
            (log w ++
             [mkLogEntry LogWarning "remote"
                ("Closing connection for API identity '"
                 +:+ m_Identity (client w) +:+ "': Too many queued messages.")])
            w)
     else
       set_client
         (set_m_WriteQueue
            (m_WriteQueue (client w) ++ [SendMessageSync_task message])
            (client w)) w).
Proof.
  unfold SendMessage, Disconnect, Log, Utility_QueueAsyncCallback,
    WorkQueue_Enqueue.
  monad_unfold. cbn [fst snd].
  destruct (20000 <? _)%Z; reflexivity.
Qed.

(** X11.  A run of [SendMessage] calls enqueues a prefix of the messages,
    in the order of the calls, and drops all the others, each with one
    more queued [DisconnectSync]; messages are dropped only once the queue
    holds more than 20000.  So a queue of at most 20001 messages never
    grows beyond 20001. *)
Theorem SendMessage_run_bounded (messages : list Dictionary) :
  forall w : World,
    let w' := snd (SendMessage_run messages w) in
    fst (SendMessage_run messages w) = Normal tt /\
    (exists k : nat,
       (k <= length messages)%nat /\
       m_WriteQueue (client w') =
         (m_WriteQueue (client w)
          ++ map SendMessageSync_task (take k messages))%list /\
       async_callbacks w' =
         (async_callbacks w
          ++ replicate (length messages - k)
               (DisconnectSync_callback (self (client w))))%list /\
       ((k < length messages)%nat ->
        (20000 < WorkQueue_GetLength (m_WriteQueue (client w')))%Z)) /\
    ((WorkQueue_GetLength (m_WriteQueue (client w)) <= 20001)%Z ->
     (WorkQueue_GetLength (m_WriteQueue (client w')) <= 20001)%Z).
Proof.
  induction messages as [|m rest IH]; intros w w'; subst w'.
  - cbn. split; [reflexivity |]. split; [| trivial].
    exists 0%nat. rewrite !app_nil_r. repeat split; trivial. lia.
  - cbn [SendMessage_run]. unfold bind. rewrite SendMessage_cases.
    unfold WorkQueue_GetLength in *.
    destruct (20000 <? Z.of_nat (length (m_WriteQueue (client w))))%Z eqn:Hfull.
    + apply Z.ltb_lt in Hfull.
      specialize (IH (set_async_callbacks
         (async_callbacks w ++ [DisconnectSync_callback (self (client w))])
         (set_log
            (log w ++
             [mkLogEntry LogWarning "remote"
                ("Closing connection for API identity '"
                 +:+ m_Identity (client w) +:+ "': Too many queued messages.")])
            w))).
      cbv zeta in IH. cbn [set_async_callbacks set_log client async_callbacks] in IH.
      destruct IH as (Hn & (k & Hk & Hq & Ha & Hdrop) & Hbound).
      split; [exact Hn |]. split; [| exact Hbound].
      assert (Hq0 : (20000 < Z.of_nat (length (m_WriteQueue (client w))))%Z)
        by lia.
      destruct k as [|k].
      * exists 0%nat. cbn [take map] in *. split; [lia |].
        split; [exact Hq |]. split.
        -- rewrite Ha, <- app_assoc. cbn [length]. rewrite Nat.sub_0_r.
           rewrite Nat.sub_0_r. reflexivity.
        -- intros _. rewrite Hq, app_nil_r. exact Hq0.
      * (* the queue does not shrink, so nothing more is enqueued *)
        exfalso.
        assert (Hlen : (length rest - S k < length rest)%nat) by lia.
        clear Hdrop.
        (* the later calls see a full queue and enqueue nothing *)
        assert (Hstay : forall (ms : list Dictionary) (v : World),
          (20000 < Z.of_nat (length (m_WriteQueue (client v))))%Z ->
          m_WriteQueue (client (snd (SendMessage_run ms v))) =
          m_WriteQueue (client v)).
        { induction ms as [|x ms IHms]; intros v Hv; [reflexivity |].
          cbn [SendMessage_run]. unfold bind. rewrite SendMessage_cases.
          unfold WorkQueue_GetLength.
          assert (Hf : (20000 <? Z.of_nat (length (m_WriteQueue (client v))))%Z
                       = true) by (apply Z.ltb_lt; exact Hv).
          rewrite Hf. rewrite IHms; [reflexivity | exact Hv]. }
        rewrite Hstay in Hq by exact Hq0.
        apply (f_equal length) in Hq. rewrite length_app, length_map in Hq.
        rewrite length_take in Hq. cbn [set_async_callbacks set_log client] in Hq.
        cbn [length] in Hk. lia.
    + apply Z.ltb_ge in Hfull.
      specialize (IH (set_client
         (set_m_WriteQueue
            (m_WriteQueue (client w) ++ [SendMessageSync_task m])
            (client w)) w)).
      cbv zeta in IH.
      cbn [set_client set_m_WriteQueue client async_callbacks m_WriteQueue self]
        in IH.
      destruct IH as (Hn & (k & Hk & Hq & Ha & Hdrop) & Hbound).
      split; [exact Hn |]. split.
      * exists (S k). cbn [length take map]. split; [lia |].
        split; [rewrite Hq, <- app_assoc; reflexivity |].
        split; [exact Ha |]. intros Hlt. apply Hdrop. lia.
      * intros _. apply Hbound. rewrite length_app. cbn [length]. lia.
Qed.

(** X12.  [SendMessageSync] lets no exception out, whatever the write
    does.  When the write throws on an open stream, the warning and the
    debug line with the diagnostic text are logged and one
    [DisconnectSync] is queued; [m_Seen] is not refreshed. *)
Theorem SendMessageSync_write_fails (write : Dictionary -> M unit)
    (message : Dictionary) (w : World) :
  (exists w' : World, SendMessageSync_with write message w = (Normal tt, w')) /\
  (forall (ex : exception) (w1 : World),
     stream_eof (m_Stream (client w)) = false ->
     write message w = (Thrown ex, w1) ->
     let info := "Error while sending JSON-RPC message for identity '"
                 +:+ m_Identity (client w1) +:+ "'" in
     SendMessageSync_with write message w =
       (Normal tt,
        set_async_callbacks
          (async_callbacks w1 ++ [DisconnectSync_callback (self (client w1))])
          (set_log
             (log w1 ++
              [mkLogEntry LogWarning "ApiClient" info;
               mkLogEntry LogDebug "ApiClient"
                 (info +:+ newline +:+ DiagnosticInformation ex)])
             w1))).
Proof.
  split.
  - unfold SendMessageSync_with, Disconnect, Log, Utility_QueueAsyncCallback,
      Utility_GetTime.
    monad_unfold. cbn [fst snd].
    destruct (stream_eof (m_Stream (client w))); [eauto |].
    destruct (write message w) as [[[]|ex] w1]; [| eauto].
    destruct (Value_ne_cstr _ _); eauto.
  - intros ex w1 Heof Hw info. subst info.
    unfold SendMessageSync_with, Disconnect, Log, Utility_QueueAsyncCallback.
    monad_unfold. cbn [fst snd]. rewrite Heof, Hw. cbn.
    rewrite <- app_assoc. reflexivity.
Qed.

(** X13.  [SendMessageSync] writes nothing to a stream at end of stream
    and leaves the world as it is.  On an open stream the message is
    appended to the output and [m_Seen] becomes the current time, except
    for a [log::SetLogPosition] message, which leaves [m_Seen] alone. *)
Theorem SendMessageSync_writes (message : Dictionary) (w : World) :
  (stream_eof (m_Stream (client w)) = true ->
   forall write : Dictionary -> M unit,
     SendMessageSync_with write message w = (Normal tt, w)) /\
  (stream_eof (m_Stream (client w)) = false ->
   let w' := snd (SendMessageSync message w) in
   fst (SendMessageSync message w) = Normal tt /\
   stream_outbound (m_Stream (client w')) =
     (stream_outbound (m_Stream (client w)) ++ [message])%list /\
   m_Seen (client w') =
     (if Value_ne_cstr (Get message "method") "log::SetLogPosition"
      then now w else m_Seen (client w)) /\
   m_WriteQueue (client w') = m_WriteQueue (client w) /\
   m_Endpoint w' = m_Endpoint w /\ log w' = log w /\
   async_callbacks w' = async_callbacks w).
Proof.
  split.
  - intros Heof write. unfold SendMessageSync_with. monad_unfold.
    rewrite Heof. reflexivity.
  - intros Heof w'. subst w'.
    unfold SendMessageSync, SendMessageSync_with, JsonRpc_SendMessage,
      update_stream, Utility_GetTime.
    monad_unfold. cbn [fst snd]. rewrite Heof.
    destruct (Value_ne_cstr _ _); cbn; repeat split; reflexivity.
Qed.

(** X14.  [DisconnectSync] deregisters this connection and no other: a
    connection with an Endpoint leaves the clients of the Endpoint, and
    the anonymous set is not touched; a connection without Endpoint
    leaves the anonymous set.  The log positions, the write queue and
    what was written to the stream stay; the stream is closed and one
    warning is logged. *)
Theorem DisconnectSync_only_this_connection (w : World) :
  let w' := snd (DisconnectSync w) in
  let me := self (client w) in
  fst (DisconnectSync w) = Normal tt /\
  (forall e : Endpoint,
     m_Endpoint w = Some e ->
     exists e' : Endpoint,
       m_Endpoint w' = Some e' /\
       (forall c : ClientPtr, c ∈ m_Clients e' <-> c ∈ m_Clients e /\ c <> me) /\
       m_LocalLogPosition e' = m_LocalLogPosition e /\
       m_RemoteLogPosition e' = m_RemoteLogPosition e /\
       m_AnonymousClients (listener w') = m_AnonymousClients (listener w)) /\
  (m_Endpoint w = None ->
   m_Endpoint w' = None /\
   forall c : ClientPtr,
     c ∈ m_AnonymousClients (listener w') <->
     c ∈ m_AnonymousClients (listener w) /\ c <> me) /\
  stream_closed (m_Stream (client w')) = true /\
  stream_outbound (m_Stream (client w')) = stream_outbound (m_Stream (client w)) /\
  m_WriteQueue (client w') = m_WriteQueue (client w) /\
  length (log w') = S (length (log w)).
Proof.
  intros w' me. subst w' me.
  unfold DisconnectSync, Log, TlsStream_Close, update_stream. monad_unfold.
  simpl. destruct (m_Endpoint w) as [e|] eqn:He; simpl; rewrite ?He; simpl.
  - split; [reflexivity |]. split.
    + intros e0 [= <-]. eexists. split; [reflexivity |]. cbn.
      split; [intros c; set_solver |]. repeat split; reflexivity.
    + split; [discriminate |]. rewrite length_app. cbn.
      repeat split; try reflexivity. lia.
  - split; [reflexivity |]. split; [discriminate |]. split.
    + intros _. split; [reflexivity |]. intros c. set_solver.
    + rewrite length_app. cbn. repeat split; try reflexivity. lia.
Qed.

End QueueProperties.

Section EndToEnd.
Context `{Externals}.

Lemma ProcessMessage_origin_returns (message : Dictionary) (w : World) :
  exists o : MessageOrigin, ProcessMessage_origin message w = (Normal o, w).
Proof.
  unfold ProcessMessage_origin, Zone_GetByName. monad_unfold.
  destruct (m_Endpoint w) as [e|]; [| eauto].
  destruct (negb (bool_decide (m_Zone e = local_zone w))); eauto.
Qed.

(** Reading a message leaves the identity of the connection and the
    certificate of the peer as they are. *)
Lemma received_identity (message : Dictionary) (w : World) :
  m_Identity (client (received message w)) = m_Identity (client w) /\
  self (client (received message w)) = self (client w) /\
  stream_peer_certificate (m_Stream (client (received message w))) =
    stream_peer_certificate (m_Stream (client w)).
Proof.
  unfold received, ProcessMessage_seen, JsonRpc_ReadMessage, update_stream,
    Utility_GetTime.
  monad_unfold. simpl.
  destruct (stream_inbound (m_Stream (client w))) as [|[m|ex] rest];
    destruct (Value_ne_cstr _ _); simpl; repeat split; reflexivity.
Qed.

(** X15.  Enrollment end to end.  A [pki::RequestCertificate] request
    without [ts], with an [id] and with the right ticket, read by
    [ProcessMessage] while a salt is configured, is answered by one
    message on the stream: the [id] of the request, [jsonrpc] = "2.0" and
    a [result] holding [cert] and [ca]; one certificate is signed and one
    notice is logged.  This holds with or without Endpoint and whatever
    else is registered. *)
Theorem ProcessMessage_enrollment (others : Registry) (w : World)
    (message p : Dictionary) (rest : list ReadEvent) (id : Value) :
  stream_eof (m_Stream (client w)) = false ->
  stream_inbound (m_Stream (client w)) = Read_message (Some message) :: rest ->
  message !! "ts" = None ->
  message !! "method" = Some (ValueString "pki::RequestCertificate") ->
  message !! "params" = Some (ValueDictionary p) ->
  message !! "id" = Some id ->
  ticket_salt (listener w) <> EmptyString ->
  Value_to_String (Get p "ticket") =
    PBKDF2_SHA1 (m_Identity (client w)) (ticket_salt (listener w)) 50000 ->
  let peer := stream_peer_certificate (m_Stream (client w)) in
  let newcert :=
    CreateCertIcingaCA (X509_get_pubkey peer) (X509_get_subject_name peer) in
  let result : Dictionary :=
    <["ca" := ValueString
                (CertificateToString
                   (GetX509Certificate (GetIcingaCADir +:+ "/ca.crt")))]>
      {["cert" := ValueString (CertificateToString newcert)]} in
  let w' := snd (ProcessMessage (registry_with others) w) in
  fst (ProcessMessage (registry_with others) w) = Normal true /\
  stream_outbound (m_Stream (client w')) =
    (stream_outbound (m_Stream (client w))
     ++ [<["id" := id]>
           (<["jsonrpc" := ValueString "2.0"]>
              {["result" := ValueDictionary result]})])%list /\
  ca_signed w' = (ca_signed w ++ [newcert])%list /\
  length (log w') = S (length (log w)) /\
  m_Endpoint w' = m_Endpoint w.
Proof.
  intros Heof Hin Hts Hmethod Hparams Hid Hsalt Hticket peer newcert result w'.
  subst w' result newcert peer.
  destruct (Contains_Get _ _ _ Hmethod) as [_ Hgm].
  destruct (Contains_Get _ _ _ Hparams) as [_ Hgp].
  destruct (Contains_Get _ _ _ Hid) as [Hci Hgi].
  destruct (received_frame message w) as (Hfe & Hfl & _ & Hfli & Hfca & Hfo & _).
  destruct (received_identity message w) as (Hfid & _ & Hfpc).
  remember (ProcessMessage (registry_with others) w) as r eqn:Hr.
  rewrite (ProcessMessage_read _ w message rest Heof Hin) in Hr.
  set (w1 := received message w) in *.
  assert (Hfresh : ProcessMessage_freshness message w1 = (Normal false, w1)).
  { unfold ProcessMessage_freshness. monad_unfold.
    rewrite (Contains_None _ _ Hts). destruct (m_Endpoint w1); reflexivity. }
  unfold bind at 1 in Hr. rewrite Hfresh in Hr.
  unfold ProcessMessage_handle, ProcessMessage_invoke, ProcessMessage_origin,
    Zone_GetByName, ProcessMessage_dispatch, ProcessMessage_reply,
    JsonRpc_SendMessage, update_stream, Log in Hr.
  rewrite Hgm, Hgp, Hci, Hgi in Hr.
  cbn [Value_to_String Value_to_DictionaryPtr] in Hr.
  change (registry_with others "pki::RequestCertificate")
    with (Some RequestCertificateHandler) in Hr.
  apply String.eqb_neq in Hsalt.
  monad_unfold. rewrite Hfe in Hr.
  destruct (m_Endpoint w) as [e|];
    [destruct (negb (bool_decide (m_Zone e = local_zone w1))) |];
    cbn [fst snd] in Hr;
    rewrite RequestCertificateHandler_cases in Hr;
    cbn [listener set_log client] in Hr;
    rewrite Hfli, Hfid, Hfpc, Hsalt, Hticket, String.eqb_refl in Hr;
    cbn in Hr; subst r; cbn;
    rewrite Hfo, Hfca, Hfl, ?Hfe, length_app; cbn;
    unfold Set_; rewrite insert_empty;
    (repeat split; try reflexivity; lia).
Qed.

End EndToEnd.

(** * More properties of the "feature enable" command *)




Section MoreFeatureEnableProperties.
Context `{CliEnvironment}.










Lemma Run_guarded (st : CliState) (ap : list String) :
  ap = [] \/ ~ directories_exist st ->
  fst (Run ap st) = 0%Z /\ fs (snd (Run ap st)) = fs st /\
  exists msg : String,
    cli_log (snd (Run ap st)) =
      (cli_log st ++ [mkLogEntry LogCritical "cli" msg])%list.
Proof.
  intros Hor. destruct ap as [|g rest].
  - cbn. eauto.
  - destruct Hor as [Habs | Hdirs]; [discriminate |].
    unfold Run, Utility_PathExists.
    destruct (decide (features_available_dir ∈ existing (fs st))) as [Ha | Ha].
    + rewrite (bool_decide_eq_true_2 _ Ha). cbn [negb].
      destruct (decide (features_enabled_dir ∈ existing (fs st))) as [He | He].
      * destruct Hdirs. split; assumption.
      * rewrite (bool_decide_eq_false_2 _ He). cbn. eauto.
    + rewrite (bool_decide_eq_false_2 _ Ha). cbn. eauto.
Qed.

(** X16.  When no name is given or one of the two directories is missing,
    [Run] touches no file: it logs one critical message and returns 0. *)
Theorem Run_guards_touch_nothing (st : CliState) (ap : list String) :
  ap = [] \/ ~ directories_exist st ->
  fst (Run ap st) = 0%Z /\ fs (snd (Run ap st)) = fs st /\
  exists msg : String,
    cli_log (snd (Run ap st)) =
      (cli_log st ++ [mkLogEntry LogCritical "cli" msg])%list.
Proof. exact (Run_guarded st ap). Qed.














End MoreFeatureEnableProperties.

(** * The added properties on concrete inputs *)

Module MoreRuns.
Import Examples MoreExamples.
#[local] Existing Instance toy_externals.
#[local] Existing Instance toy_cli.

(** X1 on a stream at end of stream with a message still buffered. *)
Lemma ProcessMessage_at_eof_witness :
  fst (ProcessMessage registry0 world_eof) = Normal false /\
  async_callbacks (snd (ProcessMessage registry0 world_eof)) =
    [DisconnectSync_callback 7] /\
  stream_inbound (m_Stream (client (snd (ProcessMessage registry0 world_eof)))) =
    [Read_message (Some msg_unknown)].
Proof.
  rewrite (ProcessMessage_at_eof registry0 world_eof eq_refl).
  repeat split.
Defined.

(** X2 on a clean close and on another OpenSSL error. *)
Lemma ProcessMessage_without_message_witness :
  fst (ProcessMessage registry0
         (world0 [Read_throws (openssl_error (Some 0%Z))])) = Normal false /\
  fst (ProcessMessage registry0
         (world0 [Read_throws (openssl_error (Some 5%Z))])) =
    Thrown (openssl_error (Some 5%Z)) /\
  ProcessMessage registry0 (world0 []) = (Normal false, world0 []).
Proof.
  split; [| split].
  - destruct (ProcessMessage_without_message registry0
                (world0 [Read_throws (openssl_error (Some 0%Z))]) eq_refl)
      as [_ Hev].
    destruct (Hev _ _ eq_refl) as (Hclean & _ & _).
    rewrite (Hclean eq_refl). reflexivity.
  - destruct (ProcessMessage_without_message registry0
                (world0 [Read_throws (openssl_error (Some 5%Z))]) eq_refl)
      as [_ Hev].
    destruct (Hev _ _ eq_refl) as (_ & _ & Hthrow).
    rewrite (Hthrow (openssl_error (Some 5%Z)) eq_refl); [reflexivity |].
    discriminate.
  - destruct (ProcessMessage_without_message registry0 (world0 []) eq_refl)
      as [Hempty _].
    exact (Hempty eq_refl).
Defined.

(** X3 on an old heartbeat (timestamp 4, stored position 5). *)
Lemma ProcessMessage_old_message_seen_witness :
  m_Seen (client (snd (ProcessMessage registry0 world_old))) = double_of_Z 0.
Proof.
  rewrite (ProcessMessage_old_message_seen registry0 world_old (msg_position 4)
             [] endpoint0 (double_of_Z 4) eq_refl eq_refl eq_refl eq_refl
             eq_refl).
  reflexivity.
Defined.

(** X4 on a message without [ts]. *)
Lemma ProcessMessage_without_freshness_check_witness :
  ProcessMessage registry0 world_request =
    ProcessMessage_handle registry0 msg_unknown (received msg_unknown world_request).
Proof.
  apply (ProcessMessage_without_freshness_check registry0 world_request
           msg_unknown [] eq_refl eq_refl).
  right. reflexivity.
Defined.

(** X5 on a [ts] that is an array. *)
Lemma ProcessMessage_ts_conversion_throws_witness :
  fst (ProcessMessage registry0 (world0 [Read_message (Some msg_bad_ts)])) =
    Thrown bad_lexical_cast.
Proof.
  rewrite (ProcessMessage_ts_conversion_throws registry0
             (world0 [Read_message (Some msg_bad_ts)]) msg_bad_ts []
             endpoint0 (ValueArray []) bad_lexical_cast
             eq_refl eq_refl eq_refl eq_refl eq_refl).
  reflexivity.
Defined.

(** X6 on a sender of the zone "satellite" while "master" is local. *)
Lemma ProcessMessage_origin_zone_witness :
  exists o : MessageOrigin,
    ProcessMessage_origin (<["originZone" := ValueString "master"]> msg_unknown)
      (world0 []) = (Normal o, world0 []) /\
    FromZone o = Some "satellite".
Proof.
  destruct (ProcessMessage_origin_zone
              (<["originZone" := ValueString "master"]> msg_unknown) (world0 []))
    as (o & Ho & _ & _ & Hzone).
  exists o. split; [exact Ho |].
  destruct (Hzone endpoint0 eq_refl) as [Hother _].
  apply Hother. discriminate.
Defined.

(** X7 on [params] that is a number. *)
Lemma ProcessMessage_dispatch_bad_params_witness :
  ProcessMessage_dispatch registry0 origin0 msg_bad_params "log::SetLogPosition"
    (world0 []) =
    (Normal {["error" := ValueString "Error: std::bad_cast"]}, world0 []).
Proof.
  apply (ProcessMessage_dispatch_bad_params registry0 origin0 msg_bad_params
           "log::SetLogPosition" (world0 []) SetLogPositionHandler bad_cast);
    reflexivity.
Defined.

(** X8 on a wrong ticket: nothing is signed. *)
Lemma RequestCertificate_signs_iff_witness :
  ca_signed (snd (RequestCertificateHandler origin0 (Some (params_ticket "guess"))
                    (world0 []))) = [].
Proof.
  destruct (RequestCertificate_signs_iff origin0 (Some (params_ticket "guess"))
              (world0 [])) as (_ & _ & _ & Hiff).
  destruct (decide (ca_signed (snd (RequestCertificateHandler origin0
                      (Some (params_ticket "guess")) (world0 []))) =
                    ca_signed (world0 []))) as [Heq | Hne]; [exact Heq |].
  apply Hiff in Hne. destruct Hne as (p & [= <-] & _ & Hticket).
  discriminate Hticket.
Defined.

(** X9 on two requests with the same ticket and different other fields. *)
Lemma RequestCertificate_reads_only_ticket_witness :
  RequestCertificateHandler origin0 (Some (params_ticket "agent1/salt"))
    (world0 []) =
  RequestCertificateHandler origin0
    (Some (<["pubkey" := ValueString "another key"]> (params_ticket "agent1/salt")))
    (world0 []).
Proof.
  apply (RequestCertificate_reads_only_ticket origin0 origin0).
  reflexivity.
Defined.

(** X10 on [params] without [log_position]. *)
Lemma SetLogPositionHandler_any_params_witness :
  exists local' : double,
    snd (SetLogPositionHandler origin0 (Some ∅) (world0 [])) =
      set_m_Endpoint (Some (Endpoint_SetLocalLogPosition local' endpoint0))
        (world0 []) /\
    dle (double_of_Z 3) local' = true.
Proof.
  destruct (SetLogPositionHandler_any_params origin0 (Some ∅) (world0 [])
              endpoint0 eq_refl eq_refl) as (_ & local' & Hw & Hle & _).
  exists local'. split; assumption.
Defined.

(** X11 on three messages sent to a queue of 20001 messages: the bound
    is kept. *)
Lemma SendMessage_run_bounded_witness :
  (WorkQueue_GetLength
     (m_WriteQueue
        (client (snd (SendMessage_run [msg_unknown; msg_unknown; msg_unknown]
                        world_full)))) <= 20001)%Z.
Proof.
  apply (proj2 (proj2 (SendMessage_run_bounded
                         [msg_unknown; msg_unknown; msg_unknown] world_full))).
  vm_compute. discriminate.
Defined.

(** X12 on a write that fails. *)
Lemma SendMessageSync_write_fails_witness :
  fst (SendMessageSync_with failing_write msg_unknown (world0 [])) = Normal tt /\
  async_callbacks (snd (SendMessageSync_with failing_write msg_unknown (world0 []))) =
    [DisconnectSync_callback 7] /\
  length (log (snd (SendMessageSync_with failing_write msg_unknown (world0 [])))) =
    2%nat.
Proof.
  rewrite (proj2 (SendMessageSync_write_fails failing_write msg_unknown (world0 []))
             (openssl_error (Some 5%Z)) (world0 []) eq_refl eq_refl).
  repeat split.
Defined.

(** X13 on an open stream. *)
Lemma SendMessageSync_writes_witness :
  stream_outbound (m_Stream (client (snd (SendMessageSync msg_unknown (world0 []))))) =
    [msg_unknown] /\
  m_Seen (client (snd (SendMessageSync msg_unknown (world0 [])))) = double_of_Z 100.
Proof.
  destruct (proj2 (SendMessageSync_writes msg_unknown (world0 [])) eq_refl)
    as (_ & Hout & Hseen & _).
  split; [exact Hout | exact Hseen].
Defined.

(** X14 on a connection registered with an Endpoint. *)
Lemma DisconnectSync_only_this_connection_witness :
  exists e' : Endpoint,
    m_Endpoint (snd (DisconnectSync (world0 []))) = Some e' /\
    (7 ∉ m_Clients e') /\
    m_RemoteLogPosition e' = double_of_Z 5.
Proof.
  destruct (DisconnectSync_only_this_connection (world0 []))
    as (_ & Hep & _).
  destruct (Hep endpoint0 eq_refl) as (e' & He' & Hclients & _ & Hremote & _).
  exists e'. split; [exact He' |]. split; [| exact Hremote].
  intros Hin. apply Hclients in Hin as [_ Hne]. now apply Hne.
Defined.

(** X15 on an enrollment request with the right ticket. *)
Lemma ProcessMessage_enrollment_witness :
  fst (ProcessMessage registry0
         (world0 [Read_message (Some (msg_enroll "agent1/salt"))])) = Normal true /\
  ca_signed (snd (ProcessMessage registry0
                    (world0 [Read_message (Some (msg_enroll "agent1/salt"))]))) =
    ["cert(key of peer,subject of peer)"].
Proof.
  assert (Hsalt : ticket_salt (listener
            (world0 [Read_message (Some (msg_enroll "agent1/salt"))])) <> EmptyString)
    by discriminate.
  destruct (ProcessMessage_enrollment (fun _ => None)
              (world0 [Read_message (Some (msg_enroll "agent1/salt"))])
              (msg_enroll "agent1/salt") (params_ticket "agent1/salt") []
              (ValueString "4") eq_refl eq_refl eq_refl eq_refl eq_refl eq_refl
              Hsalt eq_refl) as (Hret & _ & Hsigned & _).
  split; [exact Hret | exact Hsigned].
Defined.

(** X16 on a state without the directory features-enabled. *)
Lemma Run_guards_touch_nothing_witness :
  fst (Run ["foo"] st_no_enabled_dir) = 0%Z /\
  fs (snd (Run ["foo"] st_no_enabled_dir)) = fs st_no_enabled_dir.
Proof.
  destruct (Run_guards_touch_nothing st_no_enabled_dir ["foo"])
    as (Hexit & Hfs & _); [| split; assumption].
  right. intros [_ He]. revert He.
  apply (bool_decide_unpack _). vm_compute. exact I.
Defined.






End MoreRuns.
